(** * ShaiMind: the emotion engine, the heuristic responder, the response
      generator and the response cleaner

    A shallow embedding of [emotion_manager.py], [llm_handler.py] and of the
    message handler of [app.py], with the properties of the specification
    stated over it.

    Python [str] values are modelled as lists of characters.  A character
    stands for the code point of its number, so the model covers the code
    points U+0000 to U+00FF; on that range the tables below are those of
    CPython ([str.isspace], [str.isalpha], [str.lower] and the class [\w] of
    the [re] module on [str] patterns). *)

From Stdlib Require Import List Ascii String ZArith NArith Lia Bool DecimalString.
Import ListNotations.

Open Scope string_scope.
Open Scope list_scope.

(** ** Python strings *)

Definition py (s : string) : list ascii := list_ascii_of_string s.
#[warnings="-uniform-inheritance"] Coercion py : string >-> list.

Definition str := list ascii.

Module PyStr.

Definition code (c : ascii) : N := N_of_ascii c.

Definition in_range (lo hi : N) (c : ascii) : bool :=
  ((lo <=? code c) && (code c <=? hi))%N.

Definition is_code (n : N) (c : ascii) : bool := (code c =? n)%N.

(** [str.isspace] on one character: TAB..CR, FS..US, space, NEL, NBSP. *)
Definition isspace_char (c : ascii) : bool :=
  in_range 9 13 c || in_range 28 32 c || is_code 133 c || is_code 160 c.

(** [str.isalpha] on one character (the letter categories). *)
Definition isalpha_char (c : ascii) : bool :=
  in_range 65 90 c || in_range 97 122 c
  || is_code 170 c || is_code 181 c || is_code 186 c
  || in_range 192 214 c || in_range 216 246 c || in_range 248 255 c.

(** The class [\w] of [re] on a [str] pattern: [str.isalnum] or ["_"]. *)
Definition isword_char (c : ascii) : bool :=
  isalpha_char c || in_range 48 57 c || is_code 95 c
  || is_code 178 c || is_code 179 c || is_code 185 c || in_range 188 190 c.

Definition lower_char (c : ascii) : ascii :=
  if in_range 65 90 c || in_range 192 214 c || in_range 216 222 c
  then ascii_of_N (code c + 32)
  else c.

(** [s.lower()] *)
Definition lower (s : str) : str := map lower_char s.

Fixpoint lstrip (s : str) : str :=
  match s with
  | c :: s' => if isspace_char c then lstrip s' else s
  | [] => []
  end.

Definition rstrip (s : str) : str := rev (lstrip (rev s)).

(** [s.strip()] *)
Definition strip (s : str) : str := rstrip (lstrip s).

(** [s.startswith(p)] *)
Fixpoint startswith (s p : str) {struct p} : bool :=
  match p, s with
  | [], _ => true
  | _ :: _, [] => false
  | a :: p', b :: s' => Ascii.eqb a b && startswith s' p'
  end.

(** [s.endswith(p)] *)
Definition endswith (s p : str) : bool := startswith (rev s) (rev p).

(** [s.removeprefix(p)] *)
Definition removeprefix (s p : str) : str :=
  if startswith s p then skipn (List.length p) s else s.

(** [s.removesuffix(p)] *)
Definition removesuffix (s p : str) : str :=
  if endswith s p then firstn (List.length s - List.length p) s else s.

(** [s.find(sub)], with [None] for -1. *)
Fixpoint find (s sub : str) : option nat :=
  if startswith s sub then Some 0
  else match s with
       | [] => None
       | _ :: s' => option_map S (find s' sub)
       end.

(** [sub in s] *)
Definition contains (s sub : str) : bool :=
  match find s sub with Some _ => true | None => false end.

(** [s.split(sep)] for a separator that is not empty (Python raises
    [ValueError] on an empty one; no call site passes one): the
    occurrences are taken from the left, without overlap.  Every round
    consumes at least one character, so [length s] rounds are enough. *)
Fixpoint split_rounds (n : nat) (s sep : str) : list str :=
  match n with
  | O => [s]
  | S n' =>
      match find s sep with
      | None => [s]
      | Some i => firstn i s :: split_rounds n' (skipn (i + List.length sep) s) sep
      end
  end.

Definition split (s sep : str) : list str := split_rounds (List.length s) s sep.

(** [pieces[-1]] of a list that is not empty. *)
Definition last_piece (pieces : list str) : str := last pieces [].

(** [sep.join(pieces)] *)
Fixpoint join (sep : str) (pieces : list str) : str :=
  match pieces with
  | [] => []
  | [p] => p
  | p :: rest => p ++ sep ++ join sep rest
  end.

(** [s.isalpha()]: false on the empty string. *)
Definition isalpha (s : str) : bool :=
  match s with
  | [] => false
  | _ => forallb isalpha_char s
  end.

(** [str(n)] for an [int]. *)
Definition str_of_int (n : Z) : str := py (NilZero.string_of_int (Z.to_int n)).

Definition LF : ascii := "010"%char.

End PyStr.

(** ** The [re] fragment used by the emotion engine: [\bWORD\b] *)

Module Re.
Import PyStr.

Definition isword (o : option ascii) : bool :=
  match o with Some c => isword_char c | None => false end.

(** [\b] between two neighbouring positions: exactly one side is a word
    character; the outside of the string counts as a non-word character. *)
Definition boundary (before after : option ascii) : bool :=
  xorb (isword before) (isword after).

(** The character before the position reached after reading [w], [prev]
    being the one before [w]. *)
Definition last_char (prev : option ascii) (w : str) : option ascii :=
  fold_left (fun _ c => Some c) w prev.

(** [\bWORD\b] matched at the current position, [prev] being the character
    before it. *)
Definition match_here (prev : option ascii) (s word : str) : bool :=
  boundary prev (hd_error s)
  && startswith s word
  && boundary (last_char prev word) (hd_error (skipn (List.length word) s)).

Fixpoint search_from (prev : option ascii) (s word : str) : bool :=
  match_here prev s word
  || match s with
     | [] => false
     | c :: s' => search_from (Some c) s' word
     end.

(** [re.search(r"\bWORD\b", s)] as a truth value. *)
Definition search (word s : str) : bool := search_from None s word.

End Re.

(** ** The persona record *)

(** Modelled from the spec: the class [PersonalityState] of
    [personality_manager.py], which is not part of the sources at hand; the
    fields are those of the data model and of the attribute accesses in the
    three modules. *)
Record PersonalityState := mkPersonalityState {
  name : str;
  traits : list str;
  anchors : list str;
  reasoning_style : str;
  system_prompt : str;
  emotional_state : str;
  emotional_intensity : Z
}.

(** ** emotion_manager.py *)

Module emotion_manager.
Import PyStr.

(** The [triggers] dict in insertion order; the key [r"\bW\b"] is
    represented by its word [W]. *)
Definition triggers : list (str * (str * Z)) :=
  [ (py "death", (py "melancholy", 2%Z));
    (py "love", (py "nostalgic", 1%Z));
    (py "fear", (py "anxious", 1%Z));
    (py "hope", (py "reflective", (-1)%Z));
    (py "raven", (py "curious", 1%Z));
    (py "mortality", (py "introspective", 2%Z)) ].

(** The body of the [if]: the two attribute assignments. *)
Definition apply_trigger (personality_state : PersonalityState)
           (new_emotion : str) (intensity_change : Z) : PersonalityState :=
  {| name := name personality_state;
     traits := traits personality_state;
     anchors := anchors personality_state;
     reasoning_style := reasoning_style personality_state;
     system_prompt := system_prompt personality_state;
     emotional_state := new_emotion;
     emotional_intensity :=
       Z.max 0 (Z.min (emotional_intensity personality_state + intensity_change) 10) |}.

(** The [for] loop with its [break]. *)
Fixpoint scan_triggers (rules : list (str * (str * Z)))
         (personality_state : PersonalityState) (input_lower : str)
  : PersonalityState :=
  match rules with
  | [] => personality_state
  | (pattern, (new_emotion, intensity_change)) :: rest =>
      if Re.search pattern input_lower
      then apply_trigger personality_state new_emotion intensity_change
      else scan_triggers rest personality_state input_lower
  end.

(** The function mutates its argument and returns nothing: the result is
    the record after the call. *)
Definition update_emotional_state (personality_state : PersonalityState)
           (user_input : str) : PersonalityState :=
  let input_lower := lower user_input in
  scan_triggers triggers personality_state input_lower.

(** The [heuristics] dict in insertion order, each lambda as the string it
    renders. *)
Definition heuristics (personality_state : PersonalityState) : list (str * str) :=
  [ (py "death",
     py "Ah, death! The eternal muse of my musings. "
        ++ name personality_state
        ++ py " cannot help but dwell upon its mystery.");
    (py "love",
     py "Love, that bittersweet elixir, fills my heart with both longing and sorrow.");
    (py "raven",
     py "The raven, ever watchful, remains a steadfast symbol of my contemplations.") ].

Fixpoint scan_heuristics (table : list (str * str)) (user_input : str) : option str :=
  match table with
  | [] => None
  | (trigger, response) :: rest =>
      if contains (lower user_input) trigger
      then Some response
      else scan_heuristics rest user_input
  end.

Definition apply_decision_heuristics (personality_state : PersonalityState)
           (user_input : str) : option str :=
  scan_heuristics (heuristics personality_state) user_input.

End emotion_manager.

(** ** Exceptions and results *)

(** The exceptions the response generator distinguishes: an
    [openai.APIStatusError] with its [status_code], and any other
    [Exception]; [text] is what [str(e)] renders. *)
Inductive exn :=
| APIStatusError (status_code : Z) (text : str)
| OtherException (text : str).

Inductive result (A : Type) :=
| Return (a : A)
| Raise (e : exn).
Arguments Return {A} a.
Arguments Raise {A} e.

Definition bind {A B : Type} (r : result A) (k : A -> result B) : result B :=
  match r with
  | Return a => k a
  | Raise e => Raise e
  end.

(** [try: body  except exn as e: handler(e)] *)
Definition try_except {A : Type} (body : result A) (handler : exn -> result A)
  : result A :=
  match body with
  | Return a => Return a
  | Raise e => handler e
  end.

Notation "x <- c1 ;; c2" := (bind c1 (fun x => c2))
  (at level 61, c1 at next level, right associativity).

(** ** Messages and the chat-completion client *)

(** A history entry, the dict [{"role": ..., "content": ...}]. *)
Record message := mkMessage { role : str; content : str }.

(** The request of [chat.completions.create]: the model identifier and the
    message list (the five sampling parameters are constants of the call). *)
Record request := mkRequest { model : str; messages : list message }.

(** The client: what one call answers.  A completion carries
    [choices[0].message.content], which the API may leave [None]. *)
Definition client := request -> result (option str).

(** ** llm_handler.py *)

Module llm_handler.
Import PyStr.

Definition indent : str := py "        ".

Definition line (text : str) : str := indent ++ text ++ [LF].

Definition internal_reasoning_prompt (personality_state : PersonalityState) : str :=
  [LF]
  ++ line (py "INTERNAL THOUGHT PROCESS (not shown to user):")
  ++ line (py "You are " ++ name personality_state
           ++ py ". Think as they would, step by step:")
  ++ line (py "- Interpret the user's message.")
  ++ line (py "- Reflect on your emotional state: "
           ++ emotional_state personality_state
           ++ py " (Intensity: "
           ++ str_of_int (emotional_intensity personality_state) ++ py ").")
  ++ line (py "- Incorporate these anchors: "
           ++ join (py ", ") (anchors personality_state) ++ py ".")
  ++ line (py "- Consider your reasoning style: "
           ++ reasoning_style personality_state ++ py ".")
  ++ line (py "- Formulate a brief, persona-appropriate response.")
  ++ line (py "- Your final output should be ONLY the persona's response, without internal thoughts or extra text.")
  ++ indent.

Definition user_prompt (personality_state : PersonalityState) (user_input : str) : str :=
  [LF]
  ++ line (py "USER MESSAGE: " ++ user_input)
  ++ line (py "Respond as " ++ name personality_state
           ++ py ", considering your thought process and reasoning style.")
  ++ indent.

Definition rate_limit_message : str :=
  py "My thoughts are racing, but I'm being asked to slow down. Please give me a moment before asking again.".

(** The two [except] clauses, in their order. *)
Definition on_exception (e : exn) : result str :=
  match e with
  | APIStatusError status_code _ =>
      if (status_code =? 401)%Z then
        Return (py "I'm sorry, but my connection to the mind-stream is reporting an invalid access key. Please ensure my operator has set up the OpenAI API key correctly.")
      else if (status_code =? 429)%Z then
        Return rate_limit_message
      else if (status_code =? 400)%Z then
        Return (py "My internal processing is encountering a complex input I cannot fully parse. Could you rephrase or simplify?")
      else
        Return (py "I seem to have encountered a temporary disruption in my thought process (API Error: "
                ++ str_of_int status_code ++ py "). Please try again shortly.")
  | OtherException text =>
      Return (py "I seem to have encountered an unexpected error in my thoughts: " ++ text)
  end.

Definition build_request (personality_state : PersonalityState)
           (user_input : str) (conversation_history : list message) : request :=
  {| model := py "gpt-4o";
     messages :=
       conversation_history
       ++ [ mkMessage (py "system") (internal_reasoning_prompt personality_state);
            mkMessage (py "user") (user_prompt personality_state user_input) ] |}.

(** [.strip()] on the content; on [None] the attribute access raises. *)
Definition strip_content (c : option str) : result str :=
  match c with
  | Some text => Return (strip text)
  | None => Raise (OtherException (py "'NoneType' object has no attribute 'strip'"))
  end.

(** The result and the requests sent to the client during the call. *)
Definition generate_persona_response (openai_client : client)
           (personality_state : PersonalityState) (user_input : str)
           (conversation_history : list message) : result str * list request :=
  let req := build_request personality_state user_input conversation_history in
  (try_except
     (response <- openai_client req ;; strip_content response)
     on_exception,
   [req]).

End llm_handler.

(** ** app.py: the response cleaner and the handler of one user message *)

Module app.
Import PyStr.

Definition fence : str := py "```".

(** [text.split(marker)[-1].strip()] when [marker in text]. *)
Definition cut_marker (marker cleaned_text : str) : str :=
  if contains cleaned_text marker
  then strip (last_piece (split cleaned_text marker))
  else cleaned_text.

(** The test on the first line inside a fence. *)
Definition looks_like_language (first_line_stripped : str) : bool :=
  (List.length first_line_stripped <? 20)%nat
  && negb (contains first_line_stripped (py " "))
  && isalpha first_line_stripped.

Definition strip_fence (cleaned_text : str) : str :=
  if startswith cleaned_text fence && endswith cleaned_text fence then
    let cleaned_text := strip (removesuffix (removeprefix cleaned_text fence) fence) in
    let lines := split cleaned_text [LF] in
    if (1 <? List.length lines)%nat then
      let first_line_stripped := lower (strip (hd [] lines)) in
      if looks_like_language first_line_stripped
      then strip (join [LF] (tl lines))
      else cleaned_text
    else cleaned_text
  else cleaned_text.

(** [extract_final_response] reads the name of the module-level
    [personality_state]. *)
Definition extract_final_response (personality_state : PersonalityState)
           (raw_text : str) : str :=
  let cleaned_text := raw_text in
  let cleaned_text := cut_marker (py "USER MESSAGE:") cleaned_text in
  let cleaned_text :=
    cut_marker (py "Respond as " ++ name personality_state ++ py ",") cleaned_text in
  let cleaned_text := cut_marker (py "RESPONSE:") cleaned_text in
  strip_fence cleaned_text.

(** What a turn reads and writes: the selected persona record, the two
    session variables, and the requests sent to the client so far. *)
Record world := mkWorld {
  personality_state : PersonalityState;
  conversation_history : list message;
  last_response : str;
  llm_requests : list request
}.

(** Truth value of an optional string: [None] and [""] are false. *)
Definition truthy (o : option str) : bool :=
  match o with
  | Some (_ :: _) => true
  | _ => false
  end.

(** The block under [if user_input:]. *)
Definition on_user_input (openai_client : client) (w : world)
           (user_input : option str) : result world :=
  if truthy user_input then
    let user_input := match user_input with Some u => u | None => [] end in
    let history := conversation_history w ++ [mkMessage (py "user") user_input] in
    let heuristic_response :=
      emotion_manager.apply_decision_heuristics (personality_state w) user_input in
    if truthy heuristic_response then
      let response_text :=
        match heuristic_response with Some r => r | None => [] end in
      Return {| personality_state := personality_state w;
                conversation_history :=
                  history ++ [mkMessage (py "assistant") response_text];
                last_response := response_text;
                llm_requests := llm_requests w |}
    else
      let state := emotion_manager.update_emotional_state (personality_state w) user_input in
      let (generated, sent) :=
        llm_handler.generate_persona_response openai_client state user_input history in
      response_text <- generated ;;
      let response_text := extract_final_response state response_text in
      Return {| personality_state := state;
                conversation_history :=
                  history ++ [mkMessage (py "assistant") response_text];
                last_response := response_text;
                llm_requests := llm_requests w ++ sent |}
  else Return w.

End app.

(** ** app.py: the persona selection and the history display *)

Module page.
Import PyStr.

(** [st.session_state]: each key is present or not. *)
Record session_state := mkSession {
  selected_persona : option str;
  conversation_history : option (list message);
  last_response : option str
}.

(** The [personalities] dict, in insertion order. *)
Definition catalog : Type := list (str * PersonalityState).

Definition str_eq (a b : str) : bool :=
  if list_eq_dec ascii_dec a b then true else false.

(** [key in personalities] *)
Definition has_key (personalities : catalog) (key : str) : bool :=
  existsb (fun entry => str_eq (fst entry) key) personalities.

(** [personalities[key]], a [KeyError] when the key is missing. *)
Fixpoint lookup (personalities : catalog) (key : str) : result PersonalityState :=
  match personalities with
  | [] => Raise (OtherException key)
  | (k, v) :: rest => if str_eq k key then Return v else lookup rest key
  end.

(** [list(personalities.keys())[0]] *)
Definition first_key (personalities : catalog) : result str :=
  match personalities with
  | [] => Raise (OtherException (py "list index out of range"))
  | (k, _) :: _ => Return k
  end.

Definition system_entry (personality_state : PersonalityState) : message :=
  mkMessage (py "system") (system_prompt personality_state).

(** How the block ends: [st.rerun()] leaves the script with the session as
    it is then, to be run again; otherwise the script goes on with the
    selected record. *)
Inductive outcome :=
| Rerun (s : session_state)
| Proceed (s : session_state) (personality_state : PersonalityState).

(** The [selected_persona] key is missing or names no persona. *)
Definition needs_default (personalities : catalog) (s : session_state) : bool :=
  match selected_persona s with
  | None => true
  | Some k => negb (has_key personalities k)
  end.

(** [selected_persona_from_ui != st.session_state.selected_persona] *)
Definition differs (selected_persona_from_ui : str) (s : session_state) : bool :=
  match selected_persona s with
  | Some k => negb (str_eq selected_persona_from_ui k)
  | None => true
  end.

(** Section 3 of the script, from the defaulting of [selected_persona] to
    the initialisation of the history; [selected_persona_from_ui] is what
    the select box returns.  The [index] given to the select box is that of
    a key of the catalog after the defaulting, so [list.index] finds it. *)
Definition select_persona (personalities : catalog) (s : session_state)
           (selected_persona_from_ui : str) : result outcome :=
  s <- (if needs_default personalities s
        then k <- first_key personalities ;;
             Return {| selected_persona := Some k;
                       conversation_history := conversation_history s;
                       last_response := last_response s |}
        else Return s) ;;
  personality_state <- lookup personalities selected_persona_from_ui ;;
  if differs selected_persona_from_ui s then
    Return (Rerun {| selected_persona := Some selected_persona_from_ui;
                     conversation_history := Some [system_entry personality_state];
                     last_response := Some [] |})
  else
    let reset :=
      {| selected_persona := selected_persona s;
         conversation_history := Some [system_entry personality_state];
         last_response := last_response s |} in
    match conversation_history s with
    | None => Return (Proceed reset personality_state)
    | Some [] => Raise (OtherException (py "list index out of range"))
    | Some (first :: _) =>
        if str_eq (content first) (system_prompt personality_state)
        then Return (Proceed s personality_state)
        else Return (Proceed reset personality_state)
    end.

(** What one history entry shows: a ["user"] or an ["assistant"] chat
    message, and nothing for any other role. *)
Definition shown (m : message) : list (str * str) :=
  if str_eq (role m) (py "user") then [(py "user", content m)]
  else if str_eq (role m) (py "assistant") then [(py "assistant", content m)]
  else [].

(** Section 5 of the script: the chat messages written, in their order,
    for [reversed(conversation_history[1:])]. *)
Definition display (conversation_history : list message) : list (str * str) :=
  flat_map shown (rev (tl conversation_history)).

End page.

(** ** Notions the properties are stated with *)

Module Spec.
Import PyStr.

(** [sub] occurs in [s]. *)
Definition infix (sub s : str) : Prop :=
  exists pre post, s = pre ++ sub ++ post.

Definition last_error (s : str) : option ascii := Re.last_char None s.

(** [w] occurs in [s] as a whole word: the characters next to the
    occurrence, where there are any, are not word characters. *)
Definition occurs_as_word (w s : str) : Prop :=
  exists pre post,
    s = pre ++ w ++ post
    /\ Re.isword (last_error pre) = false
    /\ Re.isword (hd_error post) = false.

(** A pattern word whose first and last characters are word characters,
    as the six trigger words are. *)
Definition wordlike (w : str) : Prop :=
  Re.isword (hd_error w) = true
  /\ forall prev, Re.isword (Re.last_char prev w) = true.

(** [clamp(x, lo, hi)] *)
Definition clamp (x lo hi : Z) : Z :=
  if (x <? lo)%Z then lo else if (hi <? x)%Z then hi else x.

Definition rule : Type := str * (str * Z).
Definition rule_word (r : rule) : str := fst r.
Definition rule_label (r : rule) : str := fst (snd r).
Definition rule_delta (r : rule) : Z := snd (snd r).

(** A rule of the emotion engine matches the user input. *)
Definition matches (r : rule) (user_input : str) : bool :=
  Re.search (rule_word r) (lower user_input).

(** The three markers of the cleaner. *)
Definition user_marker : str := py "USER MESSAGE:".
Definition persona_marker (st : PersonalityState) : str :=
  py "Respond as " ++ name st ++ py ",".
Definition response_marker : str := py "RESPONSE:".

(** The text starts and ends with a triple-backtick fence. *)
Definition fenced (text : str) : bool :=
  startswith text app.fence && endswith text app.fence.

End Spec.

(** ** Sample personas, inputs and clients *)

Module Examples.
Import PyStr.

Definition poe_at (intensity : Z) : PersonalityState :=
  {| name := py "Poe";
     traits := [py "melancholic"; py "poetic"];
     anchors := [py "the raven"; py "lost love"];
     reasoning_style := py "gothic and introspective";
     system_prompt := py "You are Edgar Allan Poe.";
     emotional_state := py "calm";
     emotional_intensity := intensity |}.

Definition poe : PersonalityState := poe_at 5.

Definition fear_rule : Spec.rule := (py "fear", (py "anxious", 1%Z)).
Definition hope_rule : Spec.rule := (py "hope", (py "reflective", (-1)%Z)).

(** A client that always answers with a rate-limit error. *)
Definition rate_limited : client :=
  fun _ => Raise (APIStatusError 429 (py "Error code: 429")).

Definition fresh_world : app.world :=
  {| app.personality_state := poe;
     app.conversation_history := [mkMessage (py "system") (system_prompt poe)];
     app.last_response := [];
     app.llm_requests := [] |}.

(** The raw model output of the cleaner example. *)
Definition raw_example : str :=
  py "USER MESSAGE: hi" ++ [LF] ++ py "RESPONSE:" ++ [LF]
  ++ py "```text" ++ [LF] ++ py "Hello there```".

End Examples.

(** ** Notions and samples for the further properties *)

Module Notions.
Import PyStr.

(** The text has no white space at either end. *)
Definition stripped (text : str) : Prop := strip text = text.

(** The same input sent [n] times to the emotion engine. *)
Definition repeat_update (n : nat) (user_input : str) (st : PersonalityState)
  : PersonalityState :=
  Nat.iter n (fun s => emotion_manager.update_emotional_state s user_input) st.

(** A decimal digit or the minus sign. *)
Definition digit_or_minus (c : ascii) : bool :=
  in_range 48 57 c || is_code 45 c.

(** The sentence for a status code other than 401, 429 and 400. *)
Definition disruption_message (status_code : Z) : str :=
  py "I seem to have encountered a temporary disruption in my thought process (API Error: "
  ++ str_of_int status_code ++ py "). Please try again shortly.".

(** The first rule of the table, in its order, that matches the input. *)
Definition first_match (user_input : str) : option Spec.rule :=
  List.find (fun r => Spec.matches r user_input) emotion_manager.triggers.

Definition tesla : PersonalityState :=
  {| name := py "Tesla";
     traits := [py "visionary"];
     anchors := [py "alternating current"];
     reasoning_style := py "analytical";
     system_prompt := py "You are Nikola Tesla.";
     emotional_state := py "focused";
     emotional_intensity := 3%Z |}.

Definition two_personas : page.catalog :=
  [ (py "edgar_alan_poe", Examples.poe); (py "nikola_tesla", tesla) ].

Definition poe_session : page.session_state :=
  {| page.selected_persona := Some (py "edgar_alan_poe");
     page.conversation_history :=
       Some [ page.system_entry Examples.poe;
              mkMessage (py "user") (py "Good evening");
              mkMessage (py "assistant") (py "Good evening to you.") ];
     page.last_response := Some (py "Good evening to you.") |}.

(** The persona in effect when the select box is read: the stored
    [selected_persona] when it names a persona of the catalog, the first key
    of the catalog when the key is missing or names none. *)
Inductive in_effect (personalities : page.catalog) (s : page.session_state)
          (key : str) : Prop :=
| stored_selection :
    page.selected_persona s = Some key ->
    page.has_key personalities key = true ->
    in_effect personalities s key
| no_selection :
    page.selected_persona s = None ->
    page.first_key personalities = Return key ->
    in_effect personalities s key
| stale_selection (stale : str) :
    page.selected_persona s = Some stale ->
    page.has_key personalities stale = false ->
    page.first_key personalities = Return key ->
    in_effect personalities s key.

Definition stale_session : page.session_state :=
  {| page.selected_persona := Some (py "lord_byron");
     page.conversation_history :=
       Some [ page.system_entry Examples.poe;
              mkMessage (py "user") (py "Good evening");
              mkMessage (py "assistant") (py "Good evening to you.") ];
     page.last_response := Some (py "Good evening to you.") |}.

(** A client that always completes with the same text. *)
Definition answering (text : str) : client := fun _ => Return (Some text).

(** A client whose call fails with the given status. *)
Definition failing (status_code : Z) : client :=
  fun _ => Raise (APIStatusError status_code (py "Error")).

End Notions.

(** ** Facts about the string operations *)

Section StrFacts.
Import PyStr Spec.

Lemma startswith_app (p post : str) : startswith (p ++ post) p = true.
Proof.
  induction p as [|a p IH]; simpl; [reflexivity|].
  now rewrite Ascii.eqb_refl, IH.
Qed.

Lemma startswith_true (s p : str) :
  startswith s p = true -> s = p ++ skipn (List.length p) s.
Proof.
  revert s; induction p as [|a p IH]; intros s H; simpl in *; [reflexivity|].
  destruct s as [|b s]; [discriminate|].
  apply andb_true_iff in H as [Hab Hs].
  apply Ascii.eqb_eq in Hab; subst b.
  now rewrite <- (IH s Hs).
Qed.

Lemma startswith_iff (s p : str) :
  startswith s p = true <-> exists post, s = p ++ post.
Proof.
  split.
  - intros H; eexists; now apply startswith_true.
  - intros [post ->]; apply startswith_app.
Qed.

Lemma find_unfold (s sub : str) :
  find s sub =
    if startswith s sub then Some 0
    else match s with
         | [] => None
         | _ :: s' => option_map S (find s' sub)
         end.
Proof. destruct s; reflexivity. Qed.

Lemma find_Some (s sub : str) (i : nat) :
  find s sub = Some i ->
  s = firstn i s ++ sub ++ skipn (i + List.length sub) s.
Proof.
  revert i; induction s as [|c s IH]; intros i; rewrite find_unfold.
  - destruct (startswith [] sub) eqn:E; [|discriminate].
    intros [= <-]; now apply startswith_true.
  - destruct (startswith (c :: s) sub) eqn:E.
    + intros [= <-]; now apply startswith_true.
    + destruct (find s sub) as [j|] eqn:F; simpl; [|discriminate].
      intros [= <-]; simpl. f_equal. now apply IH.
Qed.

Lemma find_None (s sub : str) : find s sub = None -> ~ infix sub s.
Proof.
  induction s as [|c s IH]; rewrite find_unfold.
  - destruct (startswith [] sub) eqn:E; [discriminate|].
    intros _ (pre & post & H).
    destruct pre; [|discriminate]. destruct sub; [discriminate E|discriminate H].
  - destruct (startswith (c :: s) sub) eqn:E; [discriminate|].
    destruct (find s sub) eqn:F; [discriminate|].
    intros _ (pre & post & H).
    destruct pre as [|a pre]; simpl in H.
    + rewrite H, startswith_app in E; discriminate.
    + injection H as _ H. apply IH; [reflexivity|]. now exists pre, post.
Qed.

Lemma contains_true_iff (s sub : str) : contains s sub = true <-> infix sub s.
Proof.
  unfold contains; destruct (find s sub) as [i|] eqn:F; split; intros H;
    try reflexivity; try discriminate.
  - apply find_Some in F. eexists; eexists; exact F.
  - now apply find_None in F.
Qed.

Lemma contains_false_iff (s sub : str) : contains s sub = false <-> ~ infix sub s.
Proof.
  rewrite <- contains_true_iff. destruct (contains s sub); split; intros H;
    try reflexivity; try discriminate; try easy.
Qed.

Lemma infix_refl (s : str) : infix s s.
Proof. exists [], []; now rewrite app_nil_r. Qed.

Lemma infix_trans (a b c : str) : infix a b -> infix b c -> infix a c.
Proof.
  intros (p1 & q1 & ->) (p2 & q2 & ->).
  exists (p2 ++ p1), (q1 ++ q2). now rewrite !app_assoc.
Qed.

Lemma infix_suffix (pre s : str) : infix s (pre ++ s).
Proof. exists pre, []; now rewrite app_nil_r. Qed.

Lemma infix_prefix (s post : str) : infix s (s ++ post).
Proof. now exists [], post. Qed.

Lemma infix_app_l (a b s : str) : infix (a ++ b) s -> infix a s.
Proof.
  intros (pre & post & ->). exists pre, (b ++ post). now rewrite <- app_assoc.
Qed.

Lemma infix_length (a s : str) : infix a s -> List.length a <= List.length s.
Proof. intros (pre & post & ->). rewrite !length_app. lia. Qed.

Lemma contains_false_infix (s t m : str) :
  contains s m = false -> infix t s -> contains t m = false.
Proof.
  rewrite !contains_false_iff. intros H Hts Hmt. apply H.
  eapply infix_trans; eassumption.
Qed.

Lemma lstrip_suffix (s : str) : exists pre, s = pre ++ lstrip s.
Proof.
  induction s as [|c s [pre IH]]; simpl.
  - now exists [].
  - destruct (isspace_char c).
    + exists (c :: pre). simpl. now f_equal.
    + now exists [].
Qed.

Lemma rstrip_prefix (s : str) : exists post, s = rstrip s ++ post.
Proof.
  unfold rstrip. destruct (lstrip_suffix (rev s)) as [pre H].
  exists (rev pre). rewrite <- rev_app_distr, <- H. now rewrite rev_involutive.
Qed.

Lemma strip_infix (s : str) : infix (strip s) s.
Proof.
  unfold strip.
  destruct (lstrip_suffix s) as [pre H].
  destruct (rstrip_prefix (lstrip s)) as [post H'].
  exists pre, post. now rewrite <- H'.
Qed.

Lemma removeprefix_infix (s p : str) : infix (removeprefix s p) s.
Proof.
  unfold removeprefix. destruct (startswith s p); [|apply infix_refl].
  exists (firstn (List.length p) s), [].
  now rewrite app_nil_r, firstn_skipn.
Qed.

Lemma removesuffix_infix (s p : str) : infix (removesuffix s p) s.
Proof.
  unfold removesuffix. destruct (endswith s p); [|apply infix_refl].
  exists [], (skipn (List.length s - List.length p) s).
  simpl. now rewrite firstn_skipn.
Qed.

End StrFacts.

(** ** Facts about [split] and [join] *)

Section SplitFacts.
Import PyStr Spec.

Variable sep : str.
Hypothesis sep_not_empty : sep <> [].

Lemma find_nil_sep : find [] sep = None.
Proof. destruct sep; [contradiction|reflexivity]. Qed.

Lemma split_rounds_not_nil (n : nat) (s : str) : split_rounds n s sep <> [].
Proof. destruct n; simpl; [easy|]. destruct (find s sep); easy. Qed.

Lemma last_cons_not_nil (p : str) (l : list str) :
  l <> [] -> last (p :: l) [] = last l [].
Proof. destruct l; [contradiction|reflexivity]. Qed.

Lemma sep_length : 1 <= List.length sep.
Proof. destruct sep; [contradiction|simpl; lia]. Qed.

Lemma rest_length (n i : nat) (s : str) :
  List.length s <= S n -> List.length (skipn (i + List.length sep) s) <= n.
Proof. intros H. rewrite length_skipn. pose proof sep_length. lia. Qed.

Lemma split_last_no_occurrence (n : nat) (s : str) :
  List.length s <= n ->
  contains (last_piece (split_rounds n s sep)) sep = false.
Proof.
  unfold last_piece. revert s; induction n as [|n IH]; intros s Hn; simpl.
  - destruct s; [|simpl in Hn; lia]. unfold contains. now rewrite find_nil_sep.
  - destruct (find s sep) as [i|] eqn:F.
    + rewrite last_cons_not_nil by apply split_rounds_not_nil.
      apply IH. now apply rest_length.
    + simpl. unfold contains. now rewrite F.
Qed.

Lemma split_last_suffix (n : nat) (s : str) :
  exists pre, s = pre ++ last_piece (split_rounds n s sep).
Proof.
  unfold last_piece. revert s; induction n as [|n IH]; intros s; simpl.
  - now exists [].
  - destruct (find s sep) as [i|] eqn:F.
    + rewrite last_cons_not_nil by apply split_rounds_not_nil.
      destruct (IH (skipn (i + List.length sep) s)) as [pre H].
      exists (firstn (i + List.length sep) s ++ pre).
      rewrite <- app_assoc, <- H. now rewrite firstn_skipn.
    + now exists [].
Qed.

Lemma join_cons_not_nil (p : str) (l : list str) :
  l <> [] -> join sep (p :: l) = p ++ sep ++ join sep l.
Proof. destruct l; [contradiction|reflexivity]. Qed.

(** Joining the pieces of a split gives the string back. *)
Lemma join_split_rounds (n : nat) (s : str) :
  List.length s <= n -> join sep (split_rounds n s sep) = s.
Proof.
  revert s; induction n as [|n IH]; intros s Hn; simpl; [reflexivity|].
  destruct (find s sep) as [i|] eqn:F; [|reflexivity].
  rewrite join_cons_not_nil by apply split_rounds_not_nil.
  rewrite IH by now apply rest_length.
  symmetry. now apply find_Some.
Qed.

Lemma join_tl_split_infix (s : str) : infix (join sep (tl (split s sep))) s.
Proof.
  unfold split. destruct (List.length s) as [|n] eqn:L; simpl.
  - now exists [], s.
  - destruct (find s sep) as [i|] eqn:F; simpl.
    + rewrite join_split_rounds by (apply rest_length; lia).
      exists (firstn (i + List.length sep) s), [].
      now rewrite app_nil_r, firstn_skipn.
    + now exists [], s.
Qed.

End SplitFacts.

(** ** The word-boundary search finds exactly the whole-word occurrences *)

Section ReFacts.
Import PyStr Spec.

Lemma skipn_length_app (a b : str) : skipn (List.length a) (a ++ b) = b.
Proof. induction a; simpl; auto. Qed.

Lemma hd_error_app_wordlike (w post : str) :
  wordlike w -> Re.isword (hd_error (w ++ post)) = true.
Proof. intros [H _]. destruct w; [discriminate H|exact H]. Qed.

Lemma match_here_iff (w : str) (prev : option ascii) (s : str) :
  wordlike w ->
  Re.match_here prev s w = true <->
  exists post, s = w ++ post
               /\ Re.isword prev = false /\ Re.isword (hd_error post) = false.
Proof.
  intros Hw. unfold Re.match_here, Re.boundary. split.
  - intros H. apply andb_true_iff in H as [H H3].
    apply andb_true_iff in H as [H1 H2].
    apply startswith_true in H2.
    exists (skipn (List.length w) s). split; [exact H2|].
    rewrite H2 in H1 at 1. rewrite hd_error_app_wordlike in H1 by exact Hw.
    destruct Hw as [_ Hl]. rewrite Hl in H3.
    destruct (Re.isword prev), (Re.isword (hd_error (skipn (List.length w) s)));
      simpl in *; try discriminate; auto.
  - intros (post & -> & Hp & Hn).
    rewrite startswith_app, skipn_length_app, hd_error_app_wordlike by exact Hw.
    destruct Hw as [_ Hl]. now rewrite Hl, Hp, Hn.
Qed.

Lemma search_from_iff (w : str) :
  wordlike w ->
  forall (s : str) (prev : option ascii),
    Re.search_from prev s w = true <->
    exists pre post,
      s = pre ++ w ++ post
      /\ Re.isword (Re.last_char prev pre) = false
      /\ Re.isword (hd_error post) = false.
Proof.
  intros Hw. induction s as [|c s IH]; intros prev; simpl.
  - rewrite orb_false_r, match_here_iff by exact Hw. split.
    + intros (post & H & Hp & Hn). now exists [], post.
    + intros (pre & post & H & Hp & Hn).
      destruct pre; [|discriminate]. now exists post.
  - rewrite orb_true_iff, match_here_iff, IH by exact Hw. split.
    + intros [(post & H & Hp & Hn) | (pre & post & H & Hp & Hn)].
      * now exists [], post.
      * exists (c :: pre), post. simpl. now rewrite H.
    + intros (pre & post & H & Hp & Hn). destruct pre as [|a pre].
      * left. now exists post.
      * right. simpl in H. injection H as <- H. now exists pre, post.
Qed.

Lemma search_iff (w s : str) :
  wordlike w -> Re.search w s = true <-> occurs_as_word w s.
Proof. intros Hw. apply search_from_iff. exact Hw. Qed.

Lemma search_false_iff (w s : str) :
  wordlike w -> Re.search w s = false <-> ~ occurs_as_word w s.
Proof.
  intros Hw. rewrite <- search_iff by exact Hw.
  destruct (Re.search w s); split; intros H; try reflexivity;
    try discriminate; easy.
Qed.

Ltac wordlike_tac :=
  split; [reflexivity | intros prev; reflexivity].

Lemma triggers_wordlike (r : rule) :
  In r emotion_manager.triggers -> wordlike (rule_word r).
Proof.
  simpl. intros H.
  repeat (destruct H as [<- | H]; [wordlike_tac|]). contradiction.
Qed.

End ReFacts.

(** ** The emotion engine *)

Section EmotionFacts.
Import PyStr Spec emotion_manager.

Lemma clamp_max_min (x : Z) : Z.max 0 (Z.min x 10) = clamp x 0 10.
Proof.
  unfold clamp.
  destruct (Z.ltb_spec x 0); [lia|]. destruct (Z.ltb_spec 10 x); lia.
Qed.

Lemma scan_no_match (rules : list rule) (st : PersonalityState) (input : str) :
  (forall r, In r rules -> matches r input = false) ->
  scan_triggers rules st (lower input) = st.
Proof.
  induction rules as [|[w [l d]] rules IH]; intros H; simpl; [reflexivity|].
  pose proof (H (w, (l, d)) (or_introl eq_refl)) as Hw.
  unfold matches, rule_word in Hw; simpl in Hw. rewrite Hw.
  apply IH. intros r Hr. apply H. now right.
Qed.

Lemma scan_first_match (pre post : list rule) (r : rule)
      (st : PersonalityState) (input : str) :
  (forall r', In r' pre -> matches r' input = false) ->
  matches r input = true ->
  scan_triggers (pre ++ r :: post) st (lower input)
  = apply_trigger st (rule_label r) (rule_delta r).
Proof.
  intros Hpre Hr. induction pre as [|[w [l d]] pre IH]; simpl.
  - destruct r as [w [l d]]. unfold matches, rule_word in Hr; simpl in Hr.
    now rewrite Hr.
  - pose proof (Hpre (w, (l, d)) (or_introl eq_refl)) as Hw.
    unfold matches, rule_word in Hw; simpl in Hw. rewrite Hw.
    apply IH. intros r' Hr'. apply Hpre. now right.
Qed.

Lemma scan_only_match (rules : list rule) (r : rule)
      (st : PersonalityState) (input : str) :
  In r rules ->
  matches r input = true ->
  (forall r', In r' rules -> matches r' input = true -> r' = r) ->
  scan_triggers rules st (lower input)
  = apply_trigger st (rule_label r) (rule_delta r).
Proof.
  intros Hin Hr. induction rules as [|[w [l d]] rules IH]; intros Huniq;
    [contradiction|]. simpl.
  destruct (Re.search w (lower input)) eqn:E.
  - rewrite <- (Huniq (w, (l, d)) (or_introl eq_refl) E). reflexivity.
  - destruct Hin as [<- | Hin].
    + unfold matches, rule_word in Hr; simpl in Hr. congruence.
    + apply IH; [exact Hin|]. intros r' Hr'. apply Huniq. now right.
Qed.

(** Either nothing changes, or the effect of one matching rule is applied. *)
Lemma scan_cases (rules : list rule) (st : PersonalityState) (input : str) :
  scan_triggers rules st (lower input) = st
  \/ exists r, In r rules /\ matches r input = true
               /\ scan_triggers rules st (lower input)
                  = apply_trigger st (rule_label r) (rule_delta r).
Proof.
  induction rules as [|[w [l d]] rules IH]; simpl; [now left|].
  destruct (Re.search w (lower input)) eqn:E.
  - right. exists (w, (l, d)). repeat split; auto.
  - destruct IH as [IH | (r & Hin & Hm & IH)]; [now left|].
    right. exists r. repeat split; auto.
Qed.

Lemma matches_iff (r : rule) (input : str) :
  In r triggers ->
  matches r input = true <-> occurs_as_word (rule_word r) (lower input).
Proof. intros H. apply search_iff. now apply triggers_wordlike. Qed.

Lemma search_word_true (w s : str) :
  wordlike w -> occurs_as_word w s -> Re.search w s = true.
Proof. intros Hw H. now apply search_iff. Qed.

Lemma search_word_false (w s : str) :
  wordlike w -> ~ occurs_as_word w s -> Re.search w s = false.
Proof. intros Hw H. now apply search_false_iff. Qed.

Lemma wordlike_death : wordlike (py "death").
Proof. split; [reflexivity | intros prev; reflexivity]. Qed.
Lemma wordlike_love : wordlike (py "love").
Proof. split; [reflexivity | intros prev; reflexivity]. Qed.
Lemma wordlike_fear : wordlike (py "fear").
Proof. split; [reflexivity | intros prev; reflexivity]. Qed.
Lemma wordlike_hope : wordlike (py "hope").
Proof. split; [reflexivity | intros prev; reflexivity]. Qed.

(** With "hope" in the input and none of the three earlier triggers, the
    hope rule is the one applied. *)
Lemma update_hope_first (st : PersonalityState) (input : str) :
  occurs_as_word (py "hope") (lower input) ->
  ~ occurs_as_word (py "death") (lower input) ->
  ~ occurs_as_word (py "love") (lower input) ->
  ~ occurs_as_word (py "fear") (lower input) ->
  update_emotional_state st input = apply_trigger st (py "reflective") (-1).
Proof.
  intros Hh Hd Hl Hf. unfold update_emotional_state, triggers.
  cbn [scan_triggers].
  rewrite (search_word_false _ _ wordlike_death Hd).
  rewrite (search_word_false _ _ wordlike_love Hl).
  rewrite (search_word_false _ _ wordlike_fear Hf).
  rewrite (search_word_true _ _ wordlike_hope Hh).
  reflexivity.
Qed.

Lemma update_death (st : PersonalityState) (input : str) :
  occurs_as_word (py "death") (lower input) ->
  update_emotional_state st input = apply_trigger st (py "melancholy") 2.
Proof.
  intros Hd. unfold update_emotional_state, triggers. cbn [scan_triggers].
  now rewrite (search_word_true _ _ wordlike_death Hd).
Qed.

Lemma scan_frame (rules : list rule) (st : PersonalityState) (s : str) :
  let st' := scan_triggers rules st s in
  name st' = name st /\ traits st' = traits st /\ anchors st' = anchors st
  /\ reasoning_style st' = reasoning_style st
  /\ system_prompt st' = system_prompt st.
Proof.
  induction rules as [|[w [l d]] rules IH]; simpl; [easy|].
  destruct (Re.search w s); [easy|exact IH].
Qed.

Lemma scan_range (rules : list rule) (st : PersonalityState) (s : str) :
  (0 <= emotional_intensity st <= 10)%Z ->
  (0 <= emotional_intensity (scan_triggers rules st s) <= 10)%Z.
Proof.
  intros H. induction rules as [|[w [l d]] rules IH]; simpl; [exact H|].
  destruct (Re.search w s); [simpl; lia|exact IH].
Qed.

End EmotionFacts.

(** ** Properties of the emotion engine *)

Section EmotionProperties.
Import PyStr Spec emotion_manager.

(** C1: when the user input matches exactly one rule of the emotion
    engine, [update_emotional_state] sets [emotional_state] to that rule's
    label and [emotional_intensity] to [clamp(old + delta, 0, 10)]; when the
    input matches no rule, the state is unchanged. *)
Theorem update_single_matching_rule (st : PersonalityState) (user_input : str) :
  (forall r,
      In r triggers ->
      matches r user_input = true ->
      (forall r', In r' triggers -> matches r' user_input = true -> r' = r) ->
      emotional_state (update_emotional_state st user_input) = rule_label r
      /\ emotional_intensity (update_emotional_state st user_input)
         = clamp (emotional_intensity st + rule_delta r) 0 10)
  /\ ((forall r, In r triggers -> matches r user_input = false) ->
      update_emotional_state st user_input = st).
Proof.
  split.
  - intros r Hin Hm Huniq. unfold update_emotional_state.
    rewrite (scan_only_match triggers r st user_input Hin Hm Huniq).
    simpl. split; [reflexivity|apply clamp_max_min].
  - intros Hnone. now apply scan_no_match.
Qed.

Lemma update_single_matching_rule_witness :
  (emotional_state (update_emotional_state Examples.poe (py "I fear the dark"))
   = py "anxious"
   /\ emotional_intensity (update_emotional_state Examples.poe (py "I fear the dark"))
      = clamp (5 + 1) 0 10)
  /\ update_emotional_state Examples.poe (py "Good morning") = Examples.poe.
Proof.
  split.
  - apply (proj1 (update_single_matching_rule Examples.poe (py "I fear the dark"))
                 Examples.fear_rule).
    + simpl. right. right. left. reflexivity.
    + vm_compute. reflexivity.
    + intros r' Hin Hm. simpl in Hin.
      repeat (destruct Hin as [<- | Hin];
              [first [reflexivity | vm_compute in Hm; discriminate Hm]|]).
      contradiction.
  - apply (proj2 (update_single_matching_rule Examples.poe (py "Good morning"))).
    intros r Hin. simpl in Hin.
    repeat (destruct Hin as [<- | Hin]; [vm_compute; reflexivity|]).
    contradiction.
Defined.

(** C2 fails as stated: with "mortality" and "hope" both in the input and
    no earlier trigger, the state becomes "reflective" with intensity
    [old - 1], not "introspective" with [old + 2]. *)
Lemma mortality_and_hope_not_introspective :
  let st' := update_emotional_state Examples.poe (py "mortality and hope") in
  matches (py "mortality", (py "introspective", 2%Z)) (py "mortality and hope") = true
  /\ matches Examples.hope_rule (py "mortality and hope") = true
  /\ emotional_state st' = py "reflective"
  /\ emotional_intensity st' = 4%Z
  /\ ~ (emotional_state st' = py "introspective"
        /\ emotional_intensity st' = clamp (5 + 2) 0 10).
Proof.
  vm_compute. repeat split; try reflexivity.
  intros [H _]. discriminate H.
Qed.

(** C2 (amended): among the rules that match, only the one listed earliest
    in the table (death, love, fear, hope, raven, mortality) is applied.  In
    particular, for an input containing both the word "mortality" and the
    word "hope", the state becomes "melancholy" only if "death" matched
    too, and with no earlier trigger (death, love, fear) the hope rule
    wins: the state becomes "reflective" with intensity
    [clamp(old - 1, 0, 10)]. *)
Theorem first_listed_rule_wins (st : PersonalityState) (user_input : str) :
  (forall pre r post,
      triggers = pre ++ r :: post ->
      (forall r', In r' pre -> matches r' user_input = false) ->
      matches r user_input = true ->
      update_emotional_state st user_input
      = apply_trigger st (rule_label r) (rule_delta r))
  /\ (occurs_as_word (py "mortality") (lower user_input) ->
      occurs_as_word (py "hope") (lower user_input) ->
      (emotional_state (update_emotional_state st user_input) = py "melancholy" ->
       occurs_as_word (py "death") (lower user_input))
      /\ (~ occurs_as_word (py "death") (lower user_input) ->
          ~ occurs_as_word (py "love") (lower user_input) ->
          ~ occurs_as_word (py "fear") (lower user_input) ->
          emotional_state (update_emotional_state st user_input) = py "reflective"
          /\ emotional_intensity (update_emotional_state st user_input)
             = clamp (emotional_intensity st - 1) 0 10)).
Proof.
  split.
  - intros pre r post Ht Hpre Hr. unfold update_emotional_state.
    rewrite Ht. now apply scan_first_match.
  - intros _ Hhope. split.
    + intros Hmel.
      destruct (Re.search (py "death") (lower user_input)) eqn:Ed;
        [now apply (search_iff _ _ wordlike_death)|].
      exfalso. revert Hmel.
      unfold update_emotional_state, triggers. cbn [scan_triggers].
      rewrite Ed.
      destruct (Re.search (py "love") (lower user_input));
        [intros H; vm_compute in H; discriminate H|].
      destruct (Re.search (py "fear") (lower user_input));
        [intros H; vm_compute in H; discriminate H|].
      rewrite (search_word_true _ _ wordlike_hope Hhope).
      intros H; vm_compute in H; discriminate H.
    + intros Hd Hl Hf. rewrite (update_hope_first st user_input Hhope Hd Hl Hf).
      simpl. split; [reflexivity|].
      rewrite clamp_max_min. f_equal.
Qed.

Lemma first_listed_rule_wins_witness :
  update_emotional_state Examples.poe (py "mortality and hope")
  = apply_trigger Examples.poe (py "reflective") (-1)
  /\ emotional_state (update_emotional_state Examples.poe (py "mortality and hope"))
     = py "reflective"
  /\ emotional_intensity (update_emotional_state Examples.poe (py "mortality and hope"))
     = clamp (5 - 1) 0 10.
Proof.
  pose proof (first_listed_rule_wins Examples.poe (py "mortality and hope"))
    as [Hfirst Hboth].
  split.
  - apply (Hfirst
             [ (py "death", (py "melancholy", 2%Z));
               (py "love", (py "nostalgic", 1%Z));
               (py "fear", (py "anxious", 1%Z)) ]
             Examples.hope_rule
             [ (py "raven", (py "curious", 1%Z));
               (py "mortality", (py "introspective", 2%Z)) ]).
    + reflexivity.
    + intros r' Hin. simpl in Hin.
      repeat (destruct Hin as [<- | Hin]; [vm_compute; reflexivity|]).
      contradiction.
    + vm_compute. reflexivity.
  - apply Hboth.
    + apply search_iff; [split; [reflexivity|intros prev; reflexivity]|].
      vm_compute. reflexivity.
    + apply (search_iff _ _ wordlike_hope). vm_compute. reflexivity.
    + apply (search_false_iff _ _ wordlike_death). vm_compute. reflexivity.
    + apply (search_false_iff _ _ wordlike_love). vm_compute. reflexivity.
    + apply (search_false_iff _ _ wordlike_fear). vm_compute. reflexivity.
Defined.

(** C3 fails as stated: from intensity 0, an input with the word "hope"
    that also has the earlier trigger "death" gets the death rule, and the
    intensity becomes 2, not 0. *)
Lemma hope_after_death_raises_intensity :
  let st' := update_emotional_state (Examples.poe_at 0) (py "hope and death") in
  emotional_intensity (Examples.poe_at 0) = 0%Z
  /\ occurs_as_word (py "hope") (lower (py "hope and death"))
  /\ emotional_intensity st' = 2%Z
  /\ emotional_intensity st' <> 0%Z.
Proof.
  split; [reflexivity|]. split.
  - apply (search_iff _ _ wordlike_hope). vm_compute. reflexivity.
  - vm_compute. split; [reflexivity|discriminate].
Qed.

(** C3 (amended): an [emotional_intensity] in [0,10] stays in [0,10] under
    [update_emotional_state], whatever the input; in particular, from
    intensity 0 an input with the word "hope" never gives -1, and when none
    of the earlier triggers "death", "love" and "fear" occurs in it as a
    word, the intensity stays 0. *)
Theorem intensity_stays_within_bounds (st : PersonalityState) (user_input : str) :
  ((0 <= emotional_intensity st <= 10)%Z ->
   (0 <= emotional_intensity (update_emotional_state st user_input) <= 10)%Z)
  /\ (emotional_intensity st = 0%Z ->
      occurs_as_word (py "hope") (lower user_input) ->
      emotional_intensity (update_emotional_state st user_input) <> (-1)%Z
      /\ (~ occurs_as_word (py "death") (lower user_input) ->
          ~ occurs_as_word (py "love") (lower user_input) ->
          ~ occurs_as_word (py "fear") (lower user_input) ->
          emotional_intensity (update_emotional_state st user_input) = 0%Z)).
Proof.
  split.
  - apply scan_range.
  - intros H0 Hhope. split.
    + pose proof (scan_range triggers st (lower user_input)) as Hr.
      unfold update_emotional_state. lia.
    + intros Hd Hl Hf. rewrite (update_hope_first st user_input Hhope Hd Hl Hf).
      simpl. rewrite H0. reflexivity.
Qed.

Lemma intensity_stays_within_bounds_witness :
  (0 <= emotional_intensity
          (update_emotional_state (Examples.poe_at 10) (py "Death and love")) <= 10)%Z
  /\ emotional_intensity
       (update_emotional_state (Examples.poe_at 0) (py "I still have hope")) = 0%Z.
Proof.
  split.
  - apply (proj1 (intensity_stays_within_bounds
                    (Examples.poe_at 10) (py "Death and love"))).
    simpl. lia.
  - apply (proj2 (intensity_stays_within_bounds
                    (Examples.poe_at 0) (py "I still have hope"))).
    + reflexivity.
    + apply (search_iff _ _ wordlike_hope). vm_compute. reflexivity.
    + apply (search_false_iff _ _ wordlike_death). vm_compute. reflexivity.
    + apply (search_false_iff _ _ wordlike_love). vm_compute. reflexivity.
    + apply (search_false_iff _ _ wordlike_fear). vm_compute. reflexivity.
Defined.

(** C8: the emotion engine matches whole words of the lower-cased input: a
    rule matches exactly when its trigger occurs there as a whole word, the
    state changes only by a rule whose trigger occurs so, "death" as a word
    gives the melancholy rule, and "deathly" alone triggers nothing. *)
Theorem triggers_match_whole_words (st : PersonalityState) (user_input : str) :
  (forall r, In r triggers ->
             (matches r user_input = true
              <-> occurs_as_word (rule_word r) (lower user_input)))
  /\ (update_emotional_state st user_input = st
      \/ exists r, In r triggers
                   /\ occurs_as_word (rule_word r) (lower user_input)
                   /\ update_emotional_state st user_input
                      = apply_trigger st (rule_label r) (rule_delta r))
  /\ (occurs_as_word (py "death") (lower user_input) ->
      emotional_state (update_emotional_state st user_input) = py "melancholy")
  /\ ((forall r, In r triggers ->
                 ~ occurs_as_word (rule_word r) (lower user_input)) ->
      update_emotional_state st user_input = st)
  /\ update_emotional_state st (py "deathly") = st
  /\ update_emotional_state st (py "A Deathly silence fell") = st
  /\ emotional_state (update_emotional_state st (py "Is DEATH near?"))
     = py "melancholy".
Proof.
  split; [intros r Hr; now apply matches_iff|].
  split.
  { destruct (scan_cases triggers st user_input) as [H | (r & Hin & Hm & H)];
      [now left|].
    right. exists r. split; [exact Hin|]. split; [|exact H].
    now apply matches_iff. }
  split; [intros Hd; now rewrite update_death|].
  split.
  { intros Hnone. apply scan_no_match. intros r Hr.
    apply search_false_iff; [now apply triggers_wordlike|]. now apply Hnone. }
  repeat split; vm_compute; reflexivity.
Qed.

Lemma triggers_match_whole_words_witness :
  emotional_state (update_emotional_state Examples.poe (py "Tell me of death."))
  = py "melancholy"
  /\ update_emotional_state Examples.poe (py "so deathly quiet") = Examples.poe.
Proof.
  pose proof (triggers_match_whole_words Examples.poe (py "Tell me of death."))
    as (_ & _ & Hdeath & _).
  pose proof (triggers_match_whole_words Examples.poe (py "so deathly quiet"))
    as (_ & _ & _ & Hnone & _).
  split.
  - apply Hdeath. apply (search_iff _ _ wordlike_death). vm_compute. reflexivity.
  - apply Hnone. intros r Hin.
    apply search_false_iff; [now apply triggers_wordlike|].
    simpl in Hin.
    repeat (destruct Hin as [<- | Hin]; [vm_compute; reflexivity|]).
    contradiction.
Defined.

(** C10: [update_emotional_state] changes at most [emotional_state] and
    [emotional_intensity]: [name], [traits], [anchors], [reasoning_style]
    and [system_prompt] are the same after every call. *)
Theorem update_frame (st : PersonalityState) (user_input : str) :
  name (update_emotional_state st user_input) = name st
  /\ traits (update_emotional_state st user_input) = traits st
  /\ anchors (update_emotional_state st user_input) = anchors st
  /\ reasoning_style (update_emotional_state st user_input) = reasoning_style st
  /\ system_prompt (update_emotional_state st user_input) = system_prompt st.
Proof. apply scan_frame. Qed.

End EmotionProperties.

(** ** The response cleaner *)

Section CleanerFacts.
Import PyStr Spec app.

Lemma cut_marker_absent (m t : str) : contains t m = false -> cut_marker m t = t.
Proof. intros H. unfold cut_marker. now rewrite H. Qed.

Lemma cut_marker_infix (m t : str) : m <> [] -> infix (cut_marker m t) t.
Proof.
  intros Hm. unfold cut_marker. destruct (contains t m); [|apply infix_refl].
  eapply infix_trans; [apply strip_infix|].
  destruct (split_last_suffix m (List.length t) t) as [pre H].
  unfold split. exists pre, []. now rewrite app_nil_r.
Qed.

Lemma cut_marker_no_occurrence (m t : str) :
  m <> [] -> contains (cut_marker m t) m = false.
Proof.
  intros Hm. unfold cut_marker. destruct (contains t m) eqn:E; [|exact E].
  eapply contains_false_infix; [|apply strip_infix].
  apply split_last_no_occurrence; [exact Hm|lia].
Qed.

Lemma LF_not_empty : [LF] <> [].
Proof. discriminate. Qed.

(** Inside a fence, what is kept is a part of the text after the opening
    fence. *)
Lemma strip_fence_fenced (t : str) :
  fenced t = true -> infix (strip_fence t) (removeprefix t fence).
Proof.
  unfold fenced, strip_fence. intros ->.
  set (inner := strip (removesuffix (removeprefix t fence) fence)).
  assert (Hin : infix inner (removeprefix t fence)).
  { eapply infix_trans; [apply strip_infix|apply removesuffix_infix]. }
  destruct (1 <? List.length (split inner [LF]))%nat; [|exact Hin].
  destruct (looks_like_language _); [|exact Hin].
  eapply infix_trans; [|exact Hin].
  eapply infix_trans; [apply strip_infix|].
  apply join_tl_split_infix. exact LF_not_empty.
Qed.

Lemma strip_fence_unfenced (t : str) : fenced t = false -> strip_fence t = t.
Proof. unfold fenced, strip_fence. now intros ->. Qed.

Lemma strip_fence_infix (t : str) : infix (strip_fence t) t.
Proof.
  destruct (fenced t) eqn:F.
  - eapply infix_trans; [now apply strip_fence_fenced|apply removeprefix_infix].
  - rewrite strip_fence_unfenced by exact F. apply infix_refl.
Qed.

Lemma strip_fence_shorter (t : str) :
  fenced t = true -> List.length (strip_fence t) < List.length t.
Proof.
  intros F. pose proof (infix_length _ _ (strip_fence_fenced t F)) as H.
  unfold fenced in F. apply andb_true_iff in F as [F _].
  unfold removeprefix in H. rewrite F in H. rewrite length_skipn in H.
  apply startswith_true in F. apply (f_equal (@List.length ascii)) in F.
  rewrite length_app in F. simpl in F, H. lia.
Qed.

Lemma user_marker_not_empty : user_marker <> [].
Proof. discriminate. Qed.

Lemma persona_marker_not_empty (st : PersonalityState) : persona_marker st <> [].
Proof. discriminate. Qed.

Lemma response_marker_not_empty : response_marker <> [].
Proof. discriminate. Qed.

Lemma extract_final_response_unfold (st : PersonalityState) (x : str) :
  extract_final_response st x
  = strip_fence
      (cut_marker response_marker
         (cut_marker (persona_marker st) (cut_marker user_marker x))).
Proof. reflexivity. Qed.

(** None of the three markers is left in a cleaned text. *)
Lemma cleaned_has_no_marker (st : PersonalityState) (x : str) :
  contains (extract_final_response st x) user_marker = false
  /\ contains (extract_final_response st x) (persona_marker st) = false
  /\ contains (extract_final_response st x) response_marker = false.
Proof.
  rewrite extract_final_response_unfold.
  set (t1 := cut_marker user_marker x).
  set (t2 := cut_marker (persona_marker st) t1).
  set (t3 := cut_marker response_marker t2).
  assert (H1 : contains t1 user_marker = false)
    by apply cut_marker_no_occurrence, user_marker_not_empty.
  assert (H2 : contains t2 (persona_marker st) = false)
    by apply cut_marker_no_occurrence, persona_marker_not_empty.
  assert (H3 : contains t3 response_marker = false)
    by apply cut_marker_no_occurrence, response_marker_not_empty.
  assert (I2 : infix t2 t1) by apply cut_marker_infix, persona_marker_not_empty.
  assert (I3 : infix t3 t2) by apply cut_marker_infix, response_marker_not_empty.
  pose proof (strip_fence_infix t3) as I4.
  split; [|split].
  - eapply contains_false_infix; [exact H1|].
    eapply infix_trans; [exact I4|]. eapply infix_trans; eassumption.
  - eapply contains_false_infix; [exact H2|].
    eapply infix_trans; eassumption.
  - eapply contains_false_infix; eassumption.
Qed.

(** On a text without markers only the fence step acts. *)
Lemma extract_without_markers (st : PersonalityState) (y : str) :
  contains y user_marker = false ->
  contains y (persona_marker st) = false ->
  contains y response_marker = false ->
  extract_final_response st y = strip_fence y.
Proof.
  intros H1 H2 H3. rewrite extract_final_response_unfold.
  now rewrite (cut_marker_absent _ _ H1), (cut_marker_absent _ _ H2),
    (cut_marker_absent _ _ H3).
Qed.

Lemma persona_marker_absent (st : PersonalityState) (t : str) :
  contains t (py "Respond as ") = false ->
  contains t (persona_marker st) = false.
Proof.
  rewrite !contains_false_iff. intros H Hin. apply H.
  unfold persona_marker in Hin. now apply infix_app_l in Hin.
Qed.

End CleanerFacts.

(** ** Properties of the response cleaner *)

Section CleanerProperties.
Import PyStr Spec app.

(** C4 fails as stated: a text inside two fences loses one fence at each
    call, so cleaning the cleaned text changes it again. *)
Lemma cleaner_not_idempotent_on_nested_fences :
  extract_final_response Examples.poe (py "``````hi``````") = py "```hi```"
  /\ extract_final_response Examples.poe
       (extract_final_response Examples.poe (py "``````hi``````")) = py "hi"
  /\ extract_final_response Examples.poe
       (extract_final_response Examples.poe (py "``````hi``````"))
     <> extract_final_response Examples.poe (py "``````hi``````").
Proof.
  vm_compute. repeat split; try reflexivity. discriminate.
Qed.

(** C4 (amended): for a fixed persona name, cleaning a cleaned text changes
    nothing exactly when the cleaned text does not both start and end with
    a triple-backtick fence: the three marker cuts never act a second
    time, and only the fence strip can. *)
Theorem cleaner_idempotent_iff_unfenced (st : PersonalityState) (x : str) :
  extract_final_response st (extract_final_response st x)
  = extract_final_response st x
  <-> fenced (extract_final_response st x) = false.
Proof.
  destruct (cleaned_has_no_marker st x) as (H1 & H2 & H3).
  rewrite (extract_without_markers st _ H1 H2 H3).
  split.
  - intros Hfix. destruct (fenced (extract_final_response st x)) eqn:F;
      [|reflexivity].
    apply strip_fence_shorter in F. rewrite Hfix in F. lia.
  - apply strip_fence_unfenced.
Qed.

(** C9: the raw output
    ["USER MESSAGE: hi\nRESPONSE:\n```text\nHello there```"] is cleaned to
    ["Hello there"], whatever the persona name: the two marker cuts keep the
    trimmed remainders, the fence strip removes one fence at each end, and
    the first line ["text"] is dropped as a language tag. *)
Theorem cleaner_example (st : PersonalityState) :
  cut_marker user_marker Examples.raw_example
  = py "hi" ++ [LF] ++ py "RESPONSE:" ++ [LF] ++ py "```text" ++ [LF]
    ++ py "Hello there```"
  /\ cut_marker (persona_marker st) (cut_marker user_marker Examples.raw_example)
     = cut_marker user_marker Examples.raw_example
  /\ cut_marker response_marker (cut_marker user_marker Examples.raw_example)
     = py "```text" ++ [LF] ++ py "Hello there```"
  /\ looks_like_language (py "text") = true
  /\ strip_fence (py "```text" ++ [LF] ++ py "Hello there```") = py "Hello there"
  /\ extract_final_response st Examples.raw_example = py "Hello there".
Proof.
  assert (E2 : cut_marker (persona_marker st)
                 (cut_marker user_marker Examples.raw_example)
               = cut_marker user_marker Examples.raw_example).
  { apply cut_marker_absent, persona_marker_absent. vm_compute. reflexivity. }
  split; [vm_compute; reflexivity|].
  split; [exact E2|].
  split; [vm_compute; reflexivity|].
  split; [vm_compute; reflexivity|].
  split; [vm_compute; reflexivity|].
  rewrite extract_final_response_unfold, E2. vm_compute. reflexivity.
Qed.

End CleanerProperties.

(** ** The heuristic responder, the response generator and the handler *)

Section HandlerFacts.
Import PyStr Spec emotion_manager llm_handler app.

Lemma contains_true (s sub : str) : infix sub s -> contains s sub = true.
Proof. apply contains_true_iff. Qed.

Lemma contains_false (s sub : str) : ~ infix sub s -> contains s sub = false.
Proof. apply contains_false_iff. Qed.

(** The generator answers with a reply, whatever the client does, and
    sends exactly one request. *)
Lemma generate_returns (openai_client : client) (st : PersonalityState)
      (user_input : str) (history : list message) :
  exists reply,
    generate_persona_response openai_client st user_input history
    = (Return reply, [build_request st user_input history]).
Proof.
  unfold generate_persona_response.
  destruct (openai_client (build_request st user_input history))
    as [[text|]|[status_code text|text]]; simpl.
  - now eexists.
  - now eexists.
  - destruct (status_code =? 401)%Z; [now eexists|].
    destruct (status_code =? 429)%Z; [now eexists|].
    destruct (status_code =? 400)%Z; now eexists.
  - now eexists.
Qed.

Lemma generate_rate_limited (openai_client : client) (st : PersonalityState)
      (user_input : str) (history : list message) (text : str) :
  openai_client (build_request st user_input history)
  = Raise (APIStatusError 429 text) ->
  generate_persona_response openai_client st user_input history
  = (Return rate_limit_message, [build_request st user_input history]).
Proof. unfold generate_persona_response. now intros ->. Qed.

Lemma truthy_not_empty (u : str) : u <> [] -> truthy (Some u) = true.
Proof. destruct u; [contradiction|reflexivity]. Qed.

(** The turn when no heuristic answers: the emotion engine runs, one
    request is sent, and the cleaned reply is appended. *)
Lemma on_user_input_llm_path (openai_client : client) (w : world)
      (user_input reply : str) :
  user_input <> [] ->
  apply_decision_heuristics (personality_state w) user_input = None ->
  fst (generate_persona_response openai_client
         (update_emotional_state (personality_state w) user_input) user_input
         (conversation_history w ++ [mkMessage (py "user") user_input]))
  = Return reply ->
  on_user_input openai_client w (Some user_input)
  = Return
      {| personality_state :=
           update_emotional_state (personality_state w) user_input;
         conversation_history :=
           (conversation_history w ++ [mkMessage (py "user") user_input])
           ++ [mkMessage (py "assistant")
                 (extract_final_response
                    (update_emotional_state (personality_state w) user_input)
                    reply)];
         last_response :=
           extract_final_response
             (update_emotional_state (personality_state w) user_input) reply;
         llm_requests :=
           llm_requests w
           ++ [build_request
                 (update_emotional_state (personality_state w) user_input)
                 user_input
                 (conversation_history w ++ [mkMessage (py "user") user_input])] |}.
Proof.
  intros Hu Hh Hg. unfold on_user_input.
  rewrite (truthy_not_empty _ Hu), Hh. cbn [truthy].
  destruct (generate_returns openai_client
              (update_emotional_state (personality_state w) user_input)
              user_input
              (conversation_history w ++ [mkMessage (py "user") user_input]))
    as [reply' E].
  rewrite E in Hg |- *. simpl in Hg. injection Hg as ->. reflexivity.
Qed.

Lemma on_user_input_returns (openai_client : client) (w : world)
      (user_input : option str) :
  exists w', on_user_input openai_client w user_input = Return w'.
Proof.
  unfold on_user_input. destruct (truthy user_input); [|now eexists].
  destruct (truthy (apply_decision_heuristics _ _)); [now eexists|].
  match goal with
  | |- context [generate_persona_response ?c ?s ?u ?h] =>
      destruct (generate_returns c s u h) as [reply ->]
  end.
  now eexists.
Qed.

Lemma rate_limit_message_is_clean (st : PersonalityState) :
  extract_final_response st rate_limit_message = rate_limit_message.
Proof.
  rewrite extract_without_markers.
  - vm_compute. reflexivity.
  - vm_compute. reflexivity.
  - apply persona_marker_absent. vm_compute. reflexivity.
  - vm_compute. reflexivity.
Qed.

End HandlerFacts.

(** ** Properties of the heuristic responder and of the handler *)

Section HandlerProperties.
Import PyStr Spec emotion_manager llm_handler app.

(** C5: when the call fails with status 429, [generate_persona_response]
    returns the fixed rate-limit sentence and raises nothing, and the
    handler appends that very sentence to the history under the role
    "assistant"; the generator and the handler return a value whatever the
    client answers, so no classified API failure propagates. *)
Theorem rate_limit_becomes_assistant_reply (openai_client : client) :
  (forall st user_input history text,
      openai_client (build_request st user_input history)
      = Raise (APIStatusError 429 text) ->
      fst (generate_persona_response openai_client st user_input history)
      = Return (py "My thoughts are racing, but I'm being asked to slow down. Please give me a moment before asking again."))
  /\ (forall w user_input text,
         user_input <> [] ->
         apply_decision_heuristics (personality_state w) user_input = None ->
         openai_client
           (build_request
              (update_emotional_state (personality_state w) user_input)
              user_input
              (conversation_history w ++ [mkMessage (py "user") user_input]))
         = Raise (APIStatusError 429 text) ->
         exists w',
           on_user_input openai_client w (Some user_input) = Return w'
           /\ conversation_history w'
              = conversation_history w
                ++ [ mkMessage (py "user") user_input;
                     mkMessage (py "assistant")
                       (py "My thoughts are racing, but I'm being asked to slow down. Please give me a moment before asking again.") ])
  /\ (forall st user_input history status_code text,
         openai_client (build_request st user_input history)
         = Raise (APIStatusError status_code text) ->
         exists reply,
           fst (generate_persona_response openai_client st user_input history)
           = Return reply)
  /\ (forall w user_input,
         exists w', on_user_input openai_client w user_input = Return w').
Proof.
  split; [|split; [|split]].
  - intros st user_input history text H.
    now rewrite (generate_rate_limited _ _ _ _ _ H).
  - intros w user_input text Hu Hh H.
    eexists. split.
    + apply on_user_input_llm_path; [exact Hu|exact Hh|].
      now rewrite (generate_rate_limited _ _ _ _ _ H).
    + cbn [conversation_history]. rewrite rate_limit_message_is_clean.
      rewrite <- app_assoc. reflexivity.
  - intros st user_input history status_code text _.
    destruct (generate_returns openai_client st user_input history) as [reply ->].
    now exists reply.
  - intros w user_input. apply on_user_input_returns.
Qed.

Lemma rate_limit_becomes_assistant_reply_witness :
  exists w',
    on_user_input Examples.rate_limited Examples.fresh_world
      (Some (py "What do you fear?")) = Return w'
    /\ conversation_history w'
       = conversation_history Examples.fresh_world
         ++ [ mkMessage (py "user") (py "What do you fear?");
              mkMessage (py "assistant")
                (py "My thoughts are racing, but I'm being asked to slow down. Please give me a moment before asking again.") ].
Proof.
  apply (proj1 (proj2 (rate_limit_becomes_assistant_reply Examples.rate_limited))
               Examples.fresh_world (py "What do you fear?") (py "Error code: 429")).
  - discriminate.
  - vm_compute. reflexivity.
  - reflexivity.
Defined.

(** C6: [apply_decision_heuristics] looks for "death", "love" and "raven",
    in this order, as substrings of the lower-cased input and returns the
    rendered template of the first one found; when none occurs it returns
    [None], and the handler then goes on to the LLM call. *)
Theorem heuristics_first_substring_wins (st : PersonalityState) (user_input : str) :
  (infix (py "death") (lower user_input) ->
   apply_decision_heuristics st user_input
   = Some (py "Ah, death! The eternal muse of my musings. " ++ name st
           ++ py " cannot help but dwell upon its mystery."))
  /\ (~ infix (py "death") (lower user_input) ->
      infix (py "love") (lower user_input) ->
      apply_decision_heuristics st user_input
      = Some (py "Love, that bittersweet elixir, fills my heart with both longing and sorrow."))
  /\ (~ infix (py "death") (lower user_input) ->
      ~ infix (py "love") (lower user_input) ->
      infix (py "raven") (lower user_input) ->
      apply_decision_heuristics st user_input
      = Some (py "The raven, ever watchful, remains a steadfast symbol of my contemplations."))
  /\ (~ infix (py "death") (lower user_input) ->
      ~ infix (py "love") (lower user_input) ->
      ~ infix (py "raven") (lower user_input) ->
      apply_decision_heuristics st user_input = None)
  /\ (forall openai_client w,
         user_input <> [] ->
         apply_decision_heuristics (personality_state w) user_input = None ->
         exists w',
           on_user_input openai_client w (Some user_input) = Return w'
           /\ personality_state w'
              = update_emotional_state (personality_state w) user_input
           /\ llm_requests w'
              = llm_requests w
                ++ [build_request
                      (update_emotional_state (personality_state w) user_input)
                      user_input
                      (conversation_history w
                       ++ [mkMessage (py "user") user_input])]).
Proof.
  unfold apply_decision_heuristics, heuristics. cbn [scan_heuristics].
  split; [|split; [|split; [|split]]].
  - intros Hd. now rewrite (contains_true _ _ Hd).
  - intros Hd Hl. now rewrite (contains_false _ _ Hd), (contains_true _ _ Hl).
  - intros Hd Hl Hr.
    now rewrite (contains_false _ _ Hd), (contains_false _ _ Hl),
      (contains_true _ _ Hr).
  - intros Hd Hl Hr.
    now rewrite (contains_false _ _ Hd), (contains_false _ _ Hl),
      (contains_false _ _ Hr).
  - intros openai_client w Hu Hh.
    destruct (generate_returns openai_client
                (update_emotional_state (personality_state w) user_input)
                user_input
                (conversation_history w ++ [mkMessage (py "user") user_input]))
      as [reply E].
    eexists. split.
    + apply (on_user_input_llm_path openai_client w user_input reply Hu Hh).
      now rewrite E.
    + split; reflexivity.
Qed.

Lemma heuristics_first_substring_wins_witness :
  apply_decision_heuristics Examples.poe (py "I am lovesick, DEATHLY so")
  = Some (py "Ah, death! The eternal muse of my musings. " ++ py "Poe"
          ++ py " cannot help but dwell upon its mystery.")
  /\ apply_decision_heuristics Examples.poe (py "Good morning") = None.
Proof.
  split.
  - apply (proj1 (heuristics_first_substring_wins Examples.poe
                    (py "I am lovesick, DEATHLY so"))).
    apply contains_true_iff. vm_compute. reflexivity.
  - apply (proj1 (proj2 (proj2 (proj2
             (heuristics_first_substring_wins Examples.poe (py "Good morning"))))));
      apply contains_false_iff; vm_compute; reflexivity.
Defined.

(** C7: for the input "Tell me about the raven outside" the handler
    answers with the raven template, for every persona and so for the one
    named "Poe": the persona record, with its emotional state and
    intensity, is unchanged, and no request is sent to the client. *)
Theorem raven_turn_short_circuits (openai_client : client) (w : world) :
  apply_decision_heuristics (personality_state w)
    (py "Tell me about the raven outside")
  = Some (py "The raven, ever watchful, remains a steadfast symbol of my contemplations.")
  /\ on_user_input openai_client w (Some (py "Tell me about the raven outside"))
     = Return
         {| personality_state := personality_state w;
            conversation_history :=
              (conversation_history w
               ++ [mkMessage (py "user") (py "Tell me about the raven outside")])
              ++ [mkMessage (py "assistant")
                    (py "The raven, ever watchful, remains a steadfast symbol of my contemplations.")];
            last_response :=
              py "The raven, ever watchful, remains a steadfast symbol of my contemplations.";
            llm_requests := llm_requests w |}
  /\ update_emotional_state (personality_state w)
       (py "Tell me about the raven outside")
     = apply_trigger (personality_state w) (py "curious") 1.
Proof.
  assert (H : apply_decision_heuristics (personality_state w)
                (py "Tell me about the raven outside")
              = Some (py "The raven, ever watchful, remains a steadfast symbol of my contemplations."))
    by (vm_compute; reflexivity).
  split; [exact H|]. split.
  - unfold on_user_input. rewrite H. reflexivity.
  - vm_compute. reflexivity.
Qed.

End HandlerProperties.

(** ** Further facts about the emotion engine and the heuristic responder *)

Section EngineMoreFacts.
Import PyStr Spec Notions emotion_manager app.

Lemma scan_some_match (rules : list rule) (st : PersonalityState) (input : str) :
  (exists r, In r rules /\ matches r input = true) ->
  exists r, In r rules
            /\ scan_triggers rules st (lower input)
               = apply_trigger st (rule_label r) (rule_delta r).
Proof.
  induction rules as [|[w [l d]] rules IH]; intros (r & Hin & Hm); [contradiction|].
  simpl. destruct (Re.search w (lower input)) eqn:E.
  - exists (w, (l, d)). split; [now left|reflexivity].
  - destruct Hin as [<- | Hin].
    + unfold matches, rule_word in Hm; simpl in Hm. congruence.
    + destruct IH as (r' & Hin' & H'); [now exists r|].
      exists r'. split; [now right|exact H'].
Qed.

(** The scan applies the first rule that matches, whatever the record. *)
Lemma scan_find (rules : list rule) (input : str) (r : rule) :
  List.find (fun r => matches r input) rules = Some r ->
  forall st, scan_triggers rules st (lower input)
             = apply_trigger st (rule_label r) (rule_delta r).
Proof.
  induction rules as [|[w [l d]] rules IH]; simpl; [discriminate|].
  unfold matches at 1, rule_word at 1. simpl.
  destruct (Re.search w (lower input)).
  - intros [= <-] st. reflexivity.
  - exact IH.
Qed.

Lemma clamp_step (x d p : Z) :
  (0 <= x <= 10)%Z ->
  ((0 <= d /\ 0 <= p) \/ (d <= 0 /\ p <= 0))%Z ->
  Z.max 0 (Z.min (clamp (x + p) 0 10 + d) 10) = clamp (x + (p + d)) 0 10.
Proof.
  intros Hx Hs. unfold clamp.
  destruct (Z.ltb_spec (x + p) 0); destruct (Z.ltb_spec 10 (x + p));
    destruct (Z.ltb_spec (x + (p + d)) 0); destruct (Z.ltb_spec 10 (x + (p + d)));
    lia.
Qed.

Lemma repeat_apply_trigger (l : str) (d : Z) (f : PersonalityState -> PersonalityState) :
  (forall st, f st = apply_trigger st l d) ->
  forall (n : nat) (st : PersonalityState),
    (0 <= emotional_intensity st <= 10)%Z ->
    emotional_intensity (Nat.iter n f st)
    = clamp (emotional_intensity st + Z.of_nat n * d) 0 10.
Proof.
  intros Hf n st Hst. induction n as [|n IH].
  - simpl. rewrite Z.add_0_r. unfold clamp.
    destruct (Z.ltb_spec (emotional_intensity st) 0);
      destruct (Z.ltb_spec 10 (emotional_intensity st)); lia.
  - rewrite Nat.iter_succ, Hf. cbn [apply_trigger emotional_intensity].
    rewrite IH, Nat2Z.inj_succ, Z.mul_succ_l.
    apply clamp_step; [exact Hst|].
    destruct (Z.le_ge_cases 0 d); [left|right]; split; nia.
Qed.

Lemma lower_char_idempotent (c : ascii) : lower_char (lower_char c) = lower_char c.
Proof. destruct c as [[] [] [] [] [] [] [] []]; reflexivity. Qed.

Lemma lower_idempotent (s : str) : lower (lower s) = lower s.
Proof.
  unfold lower. rewrite map_map. apply map_ext. apply lower_char_idempotent.
Qed.

Lemma occurs_as_word_infix (w s : str) : occurs_as_word w s -> infix w s.
Proof. intros (pre & post & H & _). now exists pre, post. Qed.

Lemma search_contains (w s : str) :
  wordlike w -> Re.search w s = true -> contains s w = true.
Proof.
  intros Hw H. apply contains_true_iff, occurs_as_word_infix.
  now apply search_iff.
Qed.

Lemma contains_search_false (w s : str) :
  wordlike w -> contains s w = false -> Re.search w s = false.
Proof.
  intros Hw H. destruct (Re.search w s) eqn:E; [|reflexivity].
  apply (search_contains _ _ Hw) in E. congruence.
Qed.

Lemma wordlike_raven : wordlike (py "raven").
Proof. split; [reflexivity | intros prev; reflexivity]. Qed.

(** A [None] of the responder means that none of its three triggers is in
    the lower-cased input. *)
Lemma heuristics_none (st : PersonalityState) (input : str) :
  apply_decision_heuristics st input = None ->
  contains (lower input) (py "death") = false
  /\ contains (lower input) (py "love") = false
  /\ contains (lower input) (py "raven") = false.
Proof.
  unfold apply_decision_heuristics, heuristics. cbn [scan_heuristics].
  destruct (contains (lower input) (py "death")); [discriminate|].
  destruct (contains (lower input) (py "love")); [discriminate|].
  destruct (contains (lower input) (py "raven")); [discriminate|].
  easy.
Qed.

Lemma heuristics_truthy (st : PersonalityState) (input : str) :
  truthy (apply_decision_heuristics st input) = true
  <-> apply_decision_heuristics st input <> None.
Proof.
  unfold apply_decision_heuristics, heuristics. cbn [scan_heuristics].
  destruct (contains (lower input) (py "death")); [easy|].
  destruct (contains (lower input) (py "love")); [easy|].
  destruct (contains (lower input) (py "raven")); easy.
Qed.

Lemma heuristics_falsy_none (st : PersonalityState) (input : str) :
  truthy (apply_decision_heuristics st input) = false ->
  apply_decision_heuristics st input = None.
Proof.
  intros H. destruct (apply_decision_heuristics st input) eqn:E; [|reflexivity].
  assert (T : truthy (apply_decision_heuristics st input) = true)
    by (apply heuristics_truthy; rewrite E; discriminate).
  rewrite E in T. congruence.
Qed.

End EngineMoreFacts.

(** ** Further properties of the emotion engine and the heuristic responder *)

Section EngineMoreProperties.
Import PyStr Spec Notions emotion_manager app.

(** X1: whenever some rule matches the input, the new intensity lies in
    [0,10], also when the old one did not. *)
Theorem matching_input_restores_range (st : PersonalityState) (user_input : str)
        (r : rule) :
  In r triggers ->
  matches r user_input = true ->
  (0 <= emotional_intensity (update_emotional_state st user_input) <= 10)%Z.
Proof.
  intros Hin Hm.
  destruct (scan_some_match triggers st user_input) as (r' & _ & H);
    [now exists r|].
  unfold update_emotional_state. rewrite H. simpl. lia.
Qed.

Lemma matching_input_restores_range_witness :
  (0 <= emotional_intensity
          (update_emotional_state (Examples.poe_at 50) (py "I fear the dark")) <= 10)%Z.
Proof.
  apply (matching_input_restores_range (Examples.poe_at 50) (py "I fear the dark")
           Examples.fear_rule).
  - simpl. right. right. left. reflexivity.
  - vm_compute. reflexivity.
Defined.

(** X2: sending the same input [n] times from an intensity in [0,10] gives
    [clamp(old + n * delta, 0, 10)] for the first matching rule: the
    intensity runs into its bound and stays there, and the label is the
    rule's from the first time on. *)
Theorem repeated_input_saturates (st : PersonalityState) (user_input : str)
        (r : rule) (n : nat) :
  first_match user_input = Some r ->
  (0 <= emotional_intensity st <= 10)%Z ->
  emotional_intensity (repeat_update n user_input st)
  = clamp (emotional_intensity st + Z.of_nat n * rule_delta r) 0 10
  /\ emotional_state (repeat_update (S n) user_input st) = rule_label r.
Proof.
  intros Hr Hst.
  pose proof (scan_find triggers user_input r Hr) as H.
  split.
  - apply (repeat_apply_trigger (rule_label r) (rule_delta r)); [|exact Hst].
    intros s. apply H.
  - unfold repeat_update. rewrite Nat.iter_succ.
    unfold update_emotional_state. rewrite H. reflexivity.
Qed.

Lemma repeated_input_saturates_witness :
  emotional_intensity (repeat_update 20 (py "I fear the dark") Examples.poe)
  = clamp (5 + 20 * 1) 0 10
  /\ emotional_state (repeat_update 21 (py "I fear the dark") Examples.poe)
     = py "anxious".
Proof.
  apply (repeated_input_saturates Examples.poe (py "I fear the dark")
           Examples.fear_rule 20).
  - vm_compute. reflexivity.
  - simpl. lia.
Defined.

(** X3: both functions read the input through [lower()] only: the input and
    its lower-cased form give the same result. *)
Theorem triggers_ignore_case (st : PersonalityState) (user_input : str) :
  update_emotional_state st (lower user_input) = update_emotional_state st user_input
  /\ apply_decision_heuristics st (lower user_input)
     = apply_decision_heuristics st user_input.
Proof.
  split.
  - unfold update_emotional_state. now rewrite lower_idempotent.
  - unfold apply_decision_heuristics, heuristics. cbn [scan_heuristics].
    now rewrite lower_idempotent.
Qed.

(** X4: the heuristic responder is looser than the emotion engine: an input
    on which the death, love or raven rule of the engine matches always gets
    a heuristic reply, and a heuristic reply is never the empty string. *)
Theorem heuristics_cover_engine_triggers (st : PersonalityState) (user_input : str) :
  (Re.search (py "death") (lower user_input) = true
   \/ Re.search (py "love") (lower user_input) = true
   \/ Re.search (py "raven") (lower user_input) = true ->
   truthy (apply_decision_heuristics st user_input) = true)
  /\ (forall reply, apply_decision_heuristics st user_input = Some reply ->
                    reply <> []).
Proof.
  split.
  - intros H. apply heuristics_truthy. intros Hn.
    apply heuristics_none in Hn as (Hd & Hl & Hr).
    destruct H as [H | [H | H]].
    + apply (search_contains _ _ wordlike_death) in H. congruence.
    + apply (search_contains _ _ wordlike_love) in H. congruence.
    + apply (search_contains _ _ wordlike_raven) in H. congruence.
  - intros reply H.
    assert (T : truthy (apply_decision_heuristics st user_input) = true)
      by (apply heuristics_truthy; rewrite H; discriminate).
    rewrite H in T. destruct reply; [discriminate T|discriminate].
Qed.

Lemma heuristics_cover_engine_triggers_witness :
  truthy (apply_decision_heuristics Examples.poe (py "The Raven sat there")) = true.
Proof.
  apply (proj1 (heuristics_cover_engine_triggers Examples.poe
                  (py "The Raven sat there"))).
  right. right. vm_compute. reflexivity.
Defined.

End EngineMoreProperties.

(** ** Further facts about [strip], the cleaner and the error messages *)

Section CleanerMoreFacts.
Import PyStr Spec Notions llm_handler app.

Lemma lstrip_idempotent (s : str) : lstrip (lstrip s) = lstrip s.
Proof.
  induction s as [|c s IH]; simpl; [reflexivity|].
  destruct (isspace_char c) eqn:E; [exact IH|]. simpl. now rewrite E.
Qed.

Lemma lstrip_head (s : str) (c : ascii) (t : str) :
  lstrip s = c :: t -> isspace_char c = false.
Proof.
  induction s as [|a s IH]; simpl; [discriminate|].
  destruct (isspace_char a) eqn:E; [exact IH|]. now intros [= <- _].
Qed.

Lemma rstrip_idempotent (s : str) : rstrip (rstrip s) = rstrip s.
Proof. unfold rstrip. now rewrite rev_involutive, lstrip_idempotent. Qed.

Lemma lstrip_rstrip_lstrip (s : str) : lstrip (rstrip (lstrip s)) = rstrip (lstrip s).
Proof.
  destruct (rstrip_prefix (lstrip s)) as [post H].
  destruct (rstrip (lstrip s)) as [|a r] eqn:R; [reflexivity|].
  simpl in H. apply lstrip_head in H. simpl. now rewrite H.
Qed.

Lemma strip_idempotent (s : str) : strip (strip s) = strip s.
Proof.
  unfold strip. now rewrite lstrip_rstrip_lstrip, rstrip_idempotent.
Qed.

Lemma cut_marker_stripped (m t : str) : stripped t -> stripped (cut_marker m t).
Proof.
  unfold stripped, cut_marker. intros H.
  destruct (contains t m); [apply strip_idempotent|exact H].
Qed.

Lemma strip_fence_stripped (t : str) : stripped t -> stripped (strip_fence t).
Proof.
  unfold stripped, strip_fence. intros H.
  destruct (startswith t fence && endswith t fence); [|exact H].
  destruct (1 <? _)%nat; [|apply strip_idempotent].
  destruct (looks_like_language _); apply strip_idempotent.
Qed.

(** The characters of a substring are characters of the string. *)
Lemma infix_In (m t : str) (c : ascii) : infix m t -> In c m -> In c t.
Proof.
  intros (pre & post & ->) H. apply in_or_app. right. apply in_or_app. now left.
Qed.

Lemma string_of_uint_digits (d : Decimal.uint) :
  forallb digit_or_minus (py (NilEmpty.string_of_uint d)) = true.
Proof. induction d; simpl; auto. Qed.

Lemma str_of_int_digits (n : Z) : forallb digit_or_minus (str_of_int n) = true.
Proof.
  unfold str_of_int. destruct (Z.to_int n) as [d|d]; simpl.
  - destruct d; try reflexivity; apply (string_of_uint_digits (_ d)).
  - destruct d; try reflexivity; apply (string_of_uint_digits (_ d)).
Qed.

Lemma str_of_int_no_letter (n : Z) (c : ascii) :
  digit_or_minus c = false -> ~ In c (str_of_int n).
Proof.
  intros Hc Hin. pose proof (str_of_int_digits n) as H.
  rewrite forallb_forall in H. apply H in Hin. congruence.
Qed.

Lemma disruption_no_letter (status_code : Z) (c : ascii) :
  c = "U"%char \/ c = "R"%char -> ~ In c (disruption_message status_code).
Proof.
  intros Hc Hin. unfold disruption_message in Hin.
  apply in_app_or in Hin as [Hin | Hin].
  - destruct Hc as [-> | ->]; vm_compute in Hin;
      repeat (destruct Hin as [Hin | Hin]; [discriminate Hin|]); exact Hin.
  - apply in_app_or in Hin as [Hin | Hin].
    + revert Hin. apply str_of_int_no_letter.
      destruct Hc as [-> | ->]; reflexivity.
    + destruct Hc as [-> | ->]; vm_compute in Hin;
        repeat (destruct Hin as [Hin | Hin]; [discriminate Hin|]); exact Hin.
Qed.

Lemma disruption_no_marker (status_code : Z) (m : str) (c : ascii) :
  c = "U"%char \/ c = "R"%char -> In c m ->
  contains (disruption_message status_code) m = false.
Proof.
  intros Hc Hm. apply contains_false_iff. intros Hin.
  apply (disruption_no_letter status_code c Hc). now apply (infix_In m).
Qed.

Lemma disruption_message_is_clean (st : PersonalityState) (status_code : Z) :
  extract_final_response st (disruption_message status_code)
  = disruption_message status_code.
Proof.
  rewrite extract_without_markers.
  - apply strip_fence_unfenced. reflexivity.
  - apply (disruption_no_marker _ _ "U"%char); [now left|]. simpl. now left.
  - apply (disruption_no_marker _ _ "R"%char); [now right|]. simpl. now left.
  - apply (disruption_no_marker _ _ "R"%char); [now right|]. simpl. now left.
Qed.

Lemma fixed_message_is_clean (st : PersonalityState) (text : str) :
  contains text user_marker = false ->
  contains text (py "Respond as ") = false ->
  contains text response_marker = false ->
  fenced text = false ->
  extract_final_response st text = text.
Proof.
  intros H1 H2 H3 H4. rewrite extract_without_markers; auto.
  - now apply strip_fence_unfenced.
  - now apply persona_marker_absent.
Qed.

(** The reply to a failed call with a status code passes the cleaner as it
    is. *)
Lemma status_reply_is_clean (st : PersonalityState) (status_code : Z)
      (text reply : str) :
  on_exception (APIStatusError status_code text) = Return reply ->
  extract_final_response st reply = reply.
Proof.
  unfold on_exception.
  destruct (status_code =? 401)%Z;
    [intros [= <-]; apply fixed_message_is_clean; vm_compute; reflexivity|].
  destruct (status_code =? 429)%Z;
    [intros [= <-]; apply fixed_message_is_clean; vm_compute; reflexivity|].
  destruct (status_code =? 400)%Z;
    [intros [= <-]; apply fixed_message_is_clean; vm_compute; reflexivity|].
  intros [= <-]. apply disruption_message_is_clean.
Qed.

End CleanerMoreFacts.

(** ** Further facts about the handler *)

Section HandlerMoreFacts.
Import PyStr Spec Notions emotion_manager llm_handler app.

(** The two ways a turn with a message can go. *)
Lemma on_user_input_cases (openai_client : client) (w : world) (text : str) :
  text <> [] ->
  (exists reply,
      apply_decision_heuristics (personality_state w) text = Some reply
      /\ on_user_input openai_client w (Some text)
         = Return
             {| personality_state := personality_state w;
                conversation_history :=
                  (conversation_history w ++ [mkMessage (py "user") text])
                  ++ [mkMessage (py "assistant") reply];
                last_response := reply;
                llm_requests := llm_requests w |})
  \/ (apply_decision_heuristics (personality_state w) text = None
      /\ exists raw,
           fst (generate_persona_response openai_client
                  (update_emotional_state (personality_state w) text) text
                  (conversation_history w ++ [mkMessage (py "user") text]))
           = Return raw
           /\ on_user_input openai_client w (Some text)
              = Return
                  {| personality_state :=
                       update_emotional_state (personality_state w) text;
                     conversation_history :=
                       (conversation_history w ++ [mkMessage (py "user") text])
                       ++ [mkMessage (py "assistant")
                             (extract_final_response
                                (update_emotional_state (personality_state w) text)
                                raw)];
                     last_response :=
                       extract_final_response
                         (update_emotional_state (personality_state w) text) raw;
                     llm_requests :=
                       llm_requests w
                       ++ [build_request
                             (update_emotional_state (personality_state w) text)
                             text
                             (conversation_history w
                              ++ [mkMessage (py "user") text])] |}).
Proof.
  intros Ht.
  destruct (apply_decision_heuristics (personality_state w) text) as [reply|] eqn:E.
  - left. exists reply. split; [reflexivity|].
    assert (T : truthy (apply_decision_heuristics (personality_state w) text) = true)
      by (apply heuristics_truthy; rewrite E; discriminate).
    unfold on_user_input. rewrite (truthy_not_empty _ Ht), T, E. reflexivity.
  - right. split; [reflexivity|].
    destruct (generate_returns openai_client
                (update_emotional_state (personality_state w) text) text
                (conversation_history w ++ [mkMessage (py "user") text]))
      as [raw G].
    exists raw. split; [now rewrite G|].
    apply on_user_input_llm_path; [exact Ht|exact E|now rewrite G].
Qed.

Lemma on_user_input_silent (openai_client : client) (w : world) (u : option str) :
  truthy u = false -> on_user_input openai_client w u = Return w.
Proof. intros H. unfold on_user_input. now rewrite H. Qed.

Lemma truthy_cases (u : option str) :
  truthy u = false \/ exists text, u = Some text /\ text <> [].
Proof.
  destruct u as [[|a t]|]; [now left| |now left].
  right. exists (a :: t). split; [reflexivity|discriminate].
Qed.

(** Without a heuristic reply, only the fear, hope and mortality rules of
    the engine can still match. *)
Lemma update_after_heuristics_none (st : PersonalityState) (text : str) :
  apply_decision_heuristics st text = None ->
  update_emotional_state st text = st
  \/ update_emotional_state st text = apply_trigger st (py "anxious") 1
  \/ update_emotional_state st text = apply_trigger st (py "reflective") (-1)
  \/ update_emotional_state st text = apply_trigger st (py "introspective") 2.
Proof.
  intros H. apply heuristics_none in H as (Hd & Hl & Hr).
  unfold update_emotional_state, triggers. cbn [scan_triggers].
  rewrite (contains_search_false _ _ wordlike_death Hd).
  rewrite (contains_search_false _ _ wordlike_love Hl).
  rewrite (contains_search_false _ _ wordlike_raven Hr).
  destruct (Re.search (py "fear") (lower text)); [now right; left|].
  destruct (Re.search (py "hope") (lower text)); [now right; right; left|].
  destruct (Re.search (py "mortality") (lower text)); [now right; right; right|].
  now left.
Qed.

End HandlerMoreFacts.

(** ** Further properties of the cleaner and of the handler *)

Section HandlerMoreProperties.
Import PyStr Spec Notions emotion_manager llm_handler app.

(** X5: the cleaner only removes text: its result is a contiguous part of
    the raw text, and so never longer. *)
Theorem cleaner_only_removes (st : PersonalityState) (raw_text : str) :
  infix (extract_final_response st raw_text) raw_text
  /\ List.length (extract_final_response st raw_text) <= List.length raw_text.
Proof.
  assert (H : infix (extract_final_response st raw_text) raw_text).
  { rewrite extract_final_response_unfold.
    eapply infix_trans; [apply strip_fence_infix|].
    eapply infix_trans; [apply cut_marker_infix, response_marker_not_empty|].
    eapply infix_trans; [apply cut_marker_infix, persona_marker_not_empty|].
    apply cut_marker_infix, user_marker_not_empty. }
  split; [exact H|now apply infix_length].
Qed.

(** X6: a cleaned text contains none of the three markers
    ["USER MESSAGE:"], ["Respond as <name>,"] and ["RESPONSE:"]. *)
Theorem cleaner_removes_markers (st : PersonalityState) (raw_text : str) :
  ~ infix (py "USER MESSAGE:") (extract_final_response st raw_text)
  /\ ~ infix (py "Respond as " ++ name st ++ py ",")
         (extract_final_response st raw_text)
  /\ ~ infix (py "RESPONSE:") (extract_final_response st raw_text).
Proof.
  destruct (cleaned_has_no_marker st raw_text) as (H1 & H2 & H3).
  repeat split; now apply contains_false_iff.
Qed.

(** X7: a text with none of the three markers that does not both start and
    end with a fence is returned as it is, white space included. *)
Theorem cleaner_identity_on_clean_text (st : PersonalityState) (text : str) :
  ~ infix (py "USER MESSAGE:") text ->
  ~ infix (py "Respond as " ++ name st ++ py ",") text ->
  ~ infix (py "RESPONSE:") text ->
  fenced text = false ->
  extract_final_response st text = text.
Proof.
  intros H1 H2 H3 H4.
  rewrite extract_without_markers; try now apply contains_false_iff.
  now apply strip_fence_unfenced.
Qed.

Lemma cleaner_identity_on_clean_text_witness :
  extract_final_response Examples.poe (py "  Quoth the Raven: ```Nevermore```  ")
  = py "  Quoth the Raven: ```Nevermore```  ".
Proof.
  apply (cleaner_identity_on_clean_text Examples.poe
           (py "  Quoth the Raven: ```Nevermore```  "));
    try (apply contains_false_iff; vm_compute; reflexivity).
  vm_compute. reflexivity.
Defined.

(** X8: the cleaner keeps a text without outer white space so, and on a
    completed call the reply stored by the handler is the cleaned form of
    the stripped completion and has no white space at either end. *)
Theorem completed_reply_is_stripped (openai_client : client) (w : world)
        (user_input completion : str) :
  user_input <> [] ->
  apply_decision_heuristics (personality_state w) user_input = None ->
  openai_client
    (build_request (update_emotional_state (personality_state w) user_input)
       user_input
       (conversation_history w ++ [mkMessage (py "user") user_input]))
  = Return (Some completion) ->
  (forall st text, stripped text -> stripped (extract_final_response st text))
  /\ exists w',
       on_user_input openai_client w (Some user_input) = Return w'
       /\ last_response w'
          = extract_final_response
              (update_emotional_state (personality_state w) user_input)
              (strip completion)
       /\ stripped (last_response w').
Proof.
  intros Hu Hh Hc.
  assert (K : forall st text, stripped text ->
                              stripped (extract_final_response st text)).
  { intros st text H. rewrite extract_final_response_unfold.
    now apply strip_fence_stripped; repeat apply cut_marker_stripped. }
  split; [exact K|].
  eexists. split.
  - apply on_user_input_llm_path; [exact Hu|exact Hh|].
    unfold generate_persona_response. rewrite Hc. reflexivity.
  - cbn [last_response]. split; [reflexivity|].
    apply K. apply strip_idempotent.
Qed.

Lemma completed_reply_is_stripped_witness :
  exists w',
    on_user_input (answering (py "  ```Fear is a shadow.```  ")) Examples.fresh_world
      (Some (py "What do you fear?")) = Return w'
    /\ stripped (last_response w').
Proof.
  destruct (completed_reply_is_stripped
              (answering (py "  ```Fear is a shadow.```  ")) Examples.fresh_world
              (py "What do you fear?") (py "  ```Fear is a shadow.```  "))
    as (_ & w' & H & _ & S).
  - discriminate.
  - vm_compute. reflexivity.
  - reflexivity.
  - exists w'. split; [exact H|exact S].
Defined.

(** X9: whatever the status code of a failed call, the handler stores the
    generator's sentence for it as it is; for a code other than 401, 429 and
    400 that sentence carries the code in decimal. *)
Theorem status_error_reply_is_stored_verbatim (openai_client : client) (w : world)
        (user_input : str) (status_code : Z) (text : str) :
  user_input <> [] ->
  apply_decision_heuristics (personality_state w) user_input = None ->
  openai_client
    (build_request (update_emotional_state (personality_state w) user_input)
       user_input
       (conversation_history w ++ [mkMessage (py "user") user_input]))
  = Raise (APIStatusError status_code text) ->
  exists w' reply,
    on_exception (APIStatusError status_code text) = Return reply
    /\ on_user_input openai_client w (Some user_input) = Return w'
    /\ last_response w' = reply
    /\ conversation_history w'
       = conversation_history w
         ++ [mkMessage (py "user") user_input; mkMessage (py "assistant") reply]
    /\ (status_code <> 401%Z -> status_code <> 429%Z -> status_code <> 400%Z ->
        reply = disruption_message status_code).
Proof.
  intros Hu Hh Hc.
  assert (R : exists reply, on_exception (APIStatusError status_code text)
                            = Return reply
                            /\ (status_code <> 401%Z -> status_code <> 429%Z ->
                                status_code <> 400%Z ->
                                reply = disruption_message status_code)).
  { unfold on_exception.
    destruct (Z.eqb_spec status_code 401); [eexists; split; [reflexivity|easy]|].
    destruct (Z.eqb_spec status_code 429); [eexists; split; [reflexivity|easy]|].
    destruct (Z.eqb_spec status_code 400); [eexists; split; [reflexivity|easy]|].
    eexists; split; reflexivity. }
  destruct R as (reply & R & D).
  eexists. exists reply. split; [exact R|]. split.
  - apply on_user_input_llm_path; [exact Hu|exact Hh|].
    unfold generate_persona_response. rewrite Hc. exact R.
  - cbn [last_response conversation_history].
    rewrite (status_reply_is_clean _ _ _ _ R), <- app_assoc.
    repeat split. exact D.
Qed.

Lemma status_error_reply_is_stored_verbatim_witness :
  exists w',
    on_user_input (failing 503) Examples.fresh_world (Some (py "What do you fear?"))
    = Return w'
    /\ last_response w' = disruption_message 503.
Proof.
  destruct (status_error_reply_is_stored_verbatim
              (failing 503) Examples.fresh_world (py "What do you fear?")
              503%Z (py "Error"))
    as (w' & reply & _ & H & L & _ & D).
  - discriminate.
  - vm_compute. reflexivity.
  - reflexivity.
  - exists w'. split; [exact H|]. rewrite L. apply D; discriminate.
Defined.

(** X10: a turn without a message changes nothing; a turn with a message
    appends exactly two entries to the history, the user's message and then
    the assistant's reply, which is also [last_response], and sends at most
    one request. *)
Theorem turn_appends_two_entries (openai_client : client) (w : world)
        (user_input : option str) :
  (truthy user_input = false ->
   on_user_input openai_client w user_input = Return w)
  /\ (forall text,
         user_input = Some text -> text <> [] ->
         exists w',
           on_user_input openai_client w user_input = Return w'
           /\ conversation_history w'
              = conversation_history w
                ++ [ mkMessage (py "user") text;
                     mkMessage (py "assistant") (last_response w') ]
           /\ (llm_requests w' = llm_requests w
               \/ exists req, llm_requests w' = llm_requests w ++ [req])).
Proof.
  split; [apply on_user_input_silent|].
  intros text -> Ht.
  destruct (on_user_input_cases openai_client w text Ht)
    as [(reply & _ & H) | (_ & raw & _ & H)]; rewrite H; eexists;
    (split; [reflexivity|]); cbn [conversation_history last_response llm_requests];
    rewrite <- app_assoc; (split; [reflexivity|]).
  - now left.
  - right. now eexists.
Qed.

Lemma turn_appends_two_entries_witness :
  on_user_input Examples.rate_limited Examples.fresh_world (Some []) 
  = Return Examples.fresh_world
  /\ exists w',
       on_user_input Examples.rate_limited Examples.fresh_world
         (Some (py "My love is gone")) = Return w'
       /\ conversation_history w'
          = conversation_history Examples.fresh_world
            ++ [ mkMessage (py "user") (py "My love is gone");
                 mkMessage (py "assistant") (last_response w') ].
Proof.
  split.
  - apply (proj1 (turn_appends_two_entries Examples.rate_limited
                    Examples.fresh_world (Some []))).
    reflexivity.
  - destruct (proj2 (turn_appends_two_entries Examples.rate_limited
                       Examples.fresh_world (Some (py "My love is gone")))
                    (py "My love is gone") eq_refl)
      as (w' & H & C & _).
    + discriminate.
    + exists w'. split; [exact H|exact C].
Defined.

(** X11: whenever the heuristic responder answers, the turn stores that
    answer, leaves the persona record as it is and sends no request. *)
Theorem heuristic_reply_short_circuits (openai_client : client) (w : world)
        (user_input reply : str) :
  apply_decision_heuristics (personality_state w) user_input = Some reply ->
  on_user_input openai_client w (Some user_input)
  = Return
      {| personality_state := personality_state w;
         conversation_history :=
           conversation_history w
           ++ [mkMessage (py "user") user_input; mkMessage (py "assistant") reply];
         last_response := reply;
         llm_requests := llm_requests w |}.
Proof.
  intros H.
  assert (Hu : user_input <> []).
  { intros ->. vm_compute in H. discriminate H. }
  destruct (on_user_input_cases openai_client w user_input Hu)
    as [(reply' & E & T) | (E & _)]; [|congruence].
  rewrite H in E. injection E as <-. rewrite T, <- app_assoc. reflexivity.
Qed.

Lemma heuristic_reply_short_circuits_witness :
  on_user_input Examples.rate_limited Examples.fresh_world
    (Some (py "My love is gone"))
  = Return
      {| personality_state := Examples.poe;
         conversation_history :=
           conversation_history Examples.fresh_world
           ++ [ mkMessage (py "user") (py "My love is gone");
                mkMessage (py "assistant")
                  (py "Love, that bittersweet elixir, fills my heart with both longing and sorrow.") ];
         last_response :=
           py "Love, that bittersweet elixir, fills my heart with both longing and sorrow.";
         llm_requests := [] |}.
Proof.
  apply (heuristic_reply_short_circuits Examples.rate_limited Examples.fresh_world
           (py "My love is gone")).
  vm_compute. reflexivity.
Defined.

(** X12: within a turn the death, love and raven rules of the emotion engine
    never apply, since the heuristic responder answers first on their
    triggers: a turn leaves the persona record as it is or applies the fear,
    the hope or the mortality rule. *)
Theorem turn_applies_three_rules_only (openai_client : client) (w : world)
        (user_input : option str) :
  exists w',
    on_user_input openai_client w user_input = Return w'
    /\ (personality_state w' = personality_state w
        \/ personality_state w'
           = apply_trigger (personality_state w) (py "anxious") 1
        \/ personality_state w'
           = apply_trigger (personality_state w) (py "reflective") (-1)
        \/ personality_state w'
           = apply_trigger (personality_state w) (py "introspective") 2).
Proof.
  destruct (truthy_cases user_input) as [F | (text & -> & Ht)].
  - exists w. split; [now apply on_user_input_silent|now left].
  - destruct (on_user_input_cases openai_client w text Ht)
      as [(reply & _ & H) | (E & raw & _ & H)]; rewrite H; eexists;
      (split; [reflexivity|]); cbn [personality_state].
    + now left.
    + now apply update_after_heuristics_none.
Qed.

End HandlerMoreProperties.

(** ** The persona selection and the display *)

Section PageFacts.
Import PyStr Spec Notions emotion_manager llm_handler.

Lemma str_eq_true (a b : str) : page.str_eq a b = true <-> a = b.
Proof. unfold page.str_eq. destruct (list_eq_dec ascii_dec a b); split; easy. Qed.

Lemma str_eq_refl (a : str) : page.str_eq a a = true.
Proof. now apply str_eq_true. Qed.

Lemma str_eq_false (a b : str) : a <> b -> page.str_eq a b = false.
Proof. unfold page.str_eq. destruct (list_eq_dec ascii_dec a b); easy. Qed.

Lemma lookup_has_key (personalities : page.catalog) (key : str)
      (p : PersonalityState) :
  page.lookup personalities key = Return p -> page.has_key personalities key = true.
Proof.
  induction personalities as [|[k v] rest IH]; simpl; [discriminate|].
  destruct (page.str_eq k key); [reflexivity|exact IH].
Qed.

(** A pass over a session that already is on the chosen persona and whose
    history starts with that persona's system prompt changes nothing. *)
Lemma select_persona_settled (personalities : page.catalog) (s : page.session_state)
      (key : str) (p : PersonalityState) (first : message) (rest : list message) :
  page.selected_persona s = Some key ->
  page.lookup personalities key = Return p ->
  page.conversation_history s = Some (first :: rest) ->
  content first = system_prompt p ->
  page.select_persona personalities s key = Return (page.Proceed s p).
Proof.
  intros Hs Hl Hh Hc. unfold page.select_persona, page.needs_default.
  rewrite Hs, (lookup_has_key _ _ _ Hl). cbn [negb bind].
  rewrite Hl. cbn [bind]. unfold page.differs.
  rewrite Hs, str_eq_refl. cbn [negb]. rewrite Hh, Hc, str_eq_refl. reflexivity.
Qed.

(** What a pass that goes on has established. *)
Lemma select_persona_proceed (personalities : page.catalog) (s s' : page.session_state)
      (key : str) (p : PersonalityState) :
  page.select_persona personalities s key = Return (page.Proceed s' p) ->
  page.lookup personalities key = Return p
  /\ page.selected_persona s' = Some key
  /\ exists first rest,
       page.conversation_history s' = Some (first :: rest)
       /\ content first = system_prompt p.
Proof.
  unfold page.select_persona.
  destruct (page.needs_default personalities s).
  - destruct (page.first_key personalities) as [k|e]; [|discriminate].
    cbn [bind]. destruct (page.lookup personalities key) as [q|e]; [|discriminate].
    cbn [bind]. unfold page.differs. cbn [page.selected_persona].
    destruct (page.str_eq key k) eqn:E; cbn [negb]; [|discriminate].
    apply str_eq_true in E. subst k. cbn [page.conversation_history].
    destruct (page.conversation_history s) as [[|first rest]|];
      [discriminate| |].
    + destruct (page.str_eq (content first) (system_prompt q)) eqn:C;
        intros [= <- <-]; (split; [reflexivity|]); (split; [reflexivity|]).
      * exists first, rest. split; [reflexivity|now apply str_eq_true].
      * now exists (page.system_entry q), [].
    + intros [= <- <-]. split; [reflexivity|]. split; [reflexivity|].
      now exists (page.system_entry q), [].
  - cbn [bind]. destruct (page.lookup personalities key) as [q|e]; [|discriminate].
    cbn [bind]. unfold page.differs.
    destruct (page.selected_persona s) as [k|] eqn:Sel; [|discriminate].
    destruct (page.str_eq key k) eqn:E; cbn [negb]; [|discriminate].
    apply str_eq_true in E. subst k.
    destruct (page.conversation_history s) as [[|first rest]|] eqn:Hh;
      [discriminate| |].
    + destruct (page.str_eq (content first) (system_prompt q)) eqn:C;
        intros [= <- <-]; (split; [reflexivity|]).
      * split; [exact Sel|]. exists first, rest.
        split; [exact Hh|now apply str_eq_true].
      * split; [reflexivity|]. now exists (page.system_entry q), [].
    + intros [= <- <-]. split; [reflexivity|]. split; [reflexivity|].
      now exists (page.system_entry q), [].
Qed.

Lemma select_persona_rerun (personalities : page.catalog) (s s' : page.session_state)
      (key : str) :
  page.select_persona personalities s key = Return (page.Rerun s') ->
  exists p,
    page.lookup personalities key = Return p
    /\ s' = {| page.selected_persona := Some key;
               page.conversation_history := Some [page.system_entry p];
               page.last_response := Some [] |}.
Proof.
  unfold page.select_persona.
  destruct (page.needs_default personalities s).
  - destruct (page.first_key personalities) as [k|e]; [|discriminate].
    cbn [bind]. destruct (page.lookup personalities key) as [q|e]; [|discriminate].
    cbn [bind]. destruct (page.differs key _).
    + intros [= <-]. now exists q.
    + cbn [page.conversation_history].
      destruct (page.conversation_history s) as [[|first rest]|]; try discriminate.
      destruct (page.str_eq _ _); discriminate.
  - cbn [bind]. destruct (page.lookup personalities key) as [q|e]; [|discriminate].
    cbn [bind]. destruct (page.differs key s).
    + intros [= <-]. now exists q.
    + destruct (page.conversation_history s) as [[|first rest]|]; try discriminate.
      destruct (page.str_eq _ _); discriminate.
Qed.

Lemma shown_user (text : str) :
  page.shown (mkMessage (py "user") text) = [(py "user", text)].
Proof. reflexivity. Qed.

Lemma shown_assistant (text : str) :
  page.shown (mkMessage (py "assistant") text) = [(py "assistant", text)].
Proof. reflexivity. Qed.

End PageFacts.

(** ** Properties of the persona selection and of the display *)

Section PageProperties.
Import PyStr Spec Notions emotion_manager llm_handler.

(** X13: the persona in effect is the stored selection when it names a
    persona of the catalog, and the first key of the catalog otherwise.
    Choosing another persona than the one in effect resets the session: the
    history becomes the single system entry with the new persona's
    [system_prompt], [last_response] becomes empty, [selected_persona]
    becomes the choice, and the script reruns.  Choosing the persona in
    effect resets nothing when the history starts with that persona's
    [system_prompt]: the block goes on with the history and
    [last_response] it found. *)
Theorem persona_switch_resets_history (personalities : page.catalog)
        (s : page.session_state) (effective chosen : str) (p : PersonalityState) :
  in_effect personalities s effective ->
  page.lookup personalities chosen = Return p ->
  (chosen <> effective ->
   page.select_persona personalities s chosen
   = Return
       (page.Rerun
          {| page.selected_persona := Some chosen;
             page.conversation_history :=
               Some [mkMessage (py "system") (system_prompt p)];
             page.last_response := Some [] |}))
  /\ (chosen = effective ->
      forall first rest,
        page.conversation_history s = Some (first :: rest) ->
        content first = system_prompt p ->
        page.select_persona personalities s chosen
        = Return
            (page.Proceed
               {| page.selected_persona := Some effective;
                  page.conversation_history := page.conversation_history s;
                  page.last_response := page.last_response s |} p)).
Proof.
  intros He Hl.
  assert (D : forall k,
             page.needs_default personalities s = true ->
             page.first_key personalities = Return k ->
             k = effective ->
             (chosen <> effective ->
              page.select_persona personalities s chosen
              = Return
                  (page.Rerun
                     {| page.selected_persona := Some chosen;
                        page.conversation_history :=
                          Some [mkMessage (py "system") (system_prompt p)];
                        page.last_response := Some [] |}))
             /\ (chosen = effective ->
                 forall first rest,
                   page.conversation_history s = Some (first :: rest) ->
                   content first = system_prompt p ->
                   page.select_persona personalities s chosen
                   = Return
                       (page.Proceed
                          {| page.selected_persona := Some effective;
                             page.conversation_history := page.conversation_history s;
                             page.last_response := page.last_response s |} p))).
  { intros k Hn Hf ->. unfold page.select_persona. rewrite Hn, Hf. cbn [bind].
    rewrite Hl. cbn [bind]. unfold page.differs. cbn [page.selected_persona].
    split.
    - intros Hne. now rewrite (str_eq_false _ _ Hne).
    - intros -> first rest Hh Hc. rewrite str_eq_refl.
      cbn [negb page.conversation_history]. now rewrite Hh, Hc, str_eq_refl. }
  destruct He as [Hs Hk | Hs Hf | stale Hs Hk Hf].
  - split.
    + intros Hne. unfold page.select_persona, page.needs_default.
      rewrite Hs, Hk. cbn [negb bind]. rewrite Hl. cbn [bind].
      unfold page.differs. now rewrite Hs, (str_eq_false _ _ Hne).
    + intros -> first rest Hh Hc.
      rewrite (select_persona_settled personalities s effective p first rest
                 Hs Hl Hh Hc).
      destruct s as [sel hist lr]. cbn in Hs |- *. now rewrite Hs.
  - apply (D effective); [|exact Hf|reflexivity].
    unfold page.needs_default. now rewrite Hs.
  - apply (D effective); [|exact Hf|reflexivity].
    unfold page.needs_default. now rewrite Hs, Hk.
Qed.

Lemma persona_switch_resets_history_witness :
  page.select_persona two_personas poe_session (py "nikola_tesla")
  = Return
      (page.Rerun
         {| page.selected_persona := Some (py "nikola_tesla");
            page.conversation_history :=
              Some [mkMessage (py "system") (py "You are Nikola Tesla.")];
            page.last_response := Some [] |})
  /\ page.select_persona two_personas stale_session (py "nikola_tesla")
     = Return
         (page.Rerun
            {| page.selected_persona := Some (py "nikola_tesla");
               page.conversation_history :=
                 Some [mkMessage (py "system") (py "You are Nikola Tesla.")];
               page.last_response := Some [] |})
  /\ page.select_persona two_personas stale_session (py "edgar_alan_poe")
     = Return
         (page.Proceed
            {| page.selected_persona := Some (py "edgar_alan_poe");
               page.conversation_history := page.conversation_history stale_session;
               page.last_response := page.last_response stale_session |}
            Examples.poe).
Proof.
  split; [|split].
  - apply (proj1 (persona_switch_resets_history two_personas poe_session
                    (py "edgar_alan_poe") (py "nikola_tesla") tesla
                    (stored_selection two_personas poe_session (py "edgar_alan_poe")
                       eq_refl eq_refl) eq_refl)).
    discriminate.
  - apply (proj1 (persona_switch_resets_history two_personas stale_session
                    (py "edgar_alan_poe") (py "nikola_tesla") tesla
                    (stale_selection two_personas stale_session (py "edgar_alan_poe")
                       (py "lord_byron") eq_refl eq_refl eq_refl)
                    eq_refl)).
    discriminate.
  - apply (proj2 (persona_switch_resets_history two_personas stale_session
                    (py "edgar_alan_poe") (py "edgar_alan_poe") Examples.poe
                    (stale_selection two_personas stale_session (py "edgar_alan_poe")
                       (py "lord_byron") eq_refl eq_refl eq_refl)
                    eq_refl) eq_refl
                 (page.system_entry Examples.poe)
                 [ mkMessage (py "user") (py "Good evening");
                   mkMessage (py "assistant") (py "Good evening to you.") ]);
      reflexivity.
Defined.

(** X14: a rerun settles at once: the pass that follows a rerun, with the
    same choice, goes on with the session the rerun left. *)
Theorem rerun_settles (personalities : page.catalog) (s s' : page.session_state)
        (chosen : str) :
  page.select_persona personalities s chosen = Return (page.Rerun s') ->
  exists p, page.select_persona personalities s' chosen = Return (page.Proceed s' p).
Proof.
  intros H. apply select_persona_rerun in H as (p & Hl & ->).
  exists p. now apply (select_persona_settled _ _ _ p (page.system_entry p) []).
Qed.

Lemma rerun_settles_witness :
  exists p,
    page.select_persona two_personas
      {| page.selected_persona := Some (py "nikola_tesla");
         page.conversation_history := Some [page.system_entry tesla];
         page.last_response := Some [] |}
      (py "nikola_tesla")
    = Return
        (page.Proceed
           {| page.selected_persona := Some (py "nikola_tesla");
              page.conversation_history := Some [page.system_entry tesla];
              page.last_response := Some [] |} p).
Proof.
  apply (rerun_settles two_personas poe_session). vm_compute. reflexivity.
Defined.

(** X15: when the selection block goes on, the record is the chosen
    persona's, the session is on that persona, and the history is not empty
    and starts with an entry whose content is that persona's
    [system_prompt], whatever the session was before. *)
Theorem history_starts_with_system_prompt (personalities : page.catalog)
        (s s' : page.session_state) (chosen : str) (p : PersonalityState) :
  page.select_persona personalities s chosen = Return (page.Proceed s' p) ->
  page.lookup personalities chosen = Return p
  /\ page.selected_persona s' = Some chosen
  /\ exists first rest,
       page.conversation_history s' = Some (first :: rest)
       /\ content first = system_prompt p.
Proof. apply select_persona_proceed. Qed.

Lemma history_starts_with_system_prompt_witness :
  page.lookup two_personas (py "edgar_alan_poe") = Return Examples.poe
  /\ Some (py "edgar_alan_poe") = Some (py "edgar_alan_poe")
  /\ exists first rest,
       Some [page.system_entry Examples.poe] = Some (first :: rest)
       /\ content first = system_prompt Examples.poe.
Proof.
  apply (history_starts_with_system_prompt two_personas
           {| page.selected_persona := Some (py "someone else");
              page.conversation_history := None;
              page.last_response := None |}
           {| page.selected_persona := Some (py "edgar_alan_poe");
              page.conversation_history := Some [page.system_entry Examples.poe];
              page.last_response := None |}
           (py "edgar_alan_poe") Examples.poe).
  vm_compute. reflexivity.
Defined.

(** X16: the conversation survives a turn and the rerun after it: once the
    block has gone on, a turn of the handler on that history followed by a
    new pass with the same choice goes on again with the history the turn
    left, no reset.  Every run of the script builds the catalog anew from
    the identity files; the two passes are taken over the same catalog. *)
Theorem conversation_survives_turn (personalities : page.catalog)
        (s s' : page.session_state) (chosen : str) (p : PersonalityState)
        (history : list message) (openai_client : client)
        (user_input : option str) (reply : str) (sent : list request)
        (w' : app.world) :
  page.select_persona personalities s chosen = Return (page.Proceed s' p) ->
  page.conversation_history s' = Some history ->
  app.on_user_input openai_client
    {| app.personality_state := p;
       app.conversation_history := history;
       app.last_response := reply;
       app.llm_requests := sent |} user_input
  = Return w' ->
  page.select_persona personalities
    {| page.selected_persona := page.selected_persona s';
       page.conversation_history := Some (app.conversation_history w');
       page.last_response := Some (app.last_response w') |} chosen
  = Return
      (page.Proceed
         {| page.selected_persona := page.selected_persona s';
            page.conversation_history := Some (app.conversation_history w');
            page.last_response := Some (app.last_response w') |} p).
Proof.
  intros Hsel Hh Hturn.
  apply select_persona_proceed in Hsel as (Hl & Hs & first & rest & Hh' & Hc).
  rewrite Hh in Hh'. injection Hh' as ->.
  assert (T : exists more, app.conversation_history w' = first :: rest ++ more).
  { destruct (truthy_cases user_input) as [F | (text & -> & Ht)].
    - rewrite on_user_input_silent in Hturn by exact F.
      injection Hturn as <-. exists []. cbn. now rewrite app_nil_r.
    - destruct (on_user_input_cases openai_client
                  {| app.personality_state := p;
                     app.conversation_history := first :: rest;
                     app.last_response := reply;
                     app.llm_requests := sent |} text Ht)
        as [(r & _ & H) | (_ & raw & _ & H)];
        rewrite H in Hturn; injection Hturn as <-;
        cbn [app.conversation_history]; rewrite <- app_assoc; eexists; reflexivity. }
  destruct T as (more & T). rewrite T.
  apply (select_persona_settled _ _ _ p first (rest ++ more)); auto.
Qed.

Lemma conversation_survives_turn_witness :
  exists w',
    app.on_user_input Examples.rate_limited
      {| app.personality_state := Examples.poe;
         app.conversation_history := [page.system_entry Examples.poe];
         app.last_response := [];
         app.llm_requests := [] |} (Some (py "My love is gone"))
    = Return w'
    /\ page.select_persona two_personas
         {| page.selected_persona := Some (py "edgar_alan_poe");
            page.conversation_history := Some (app.conversation_history w');
            page.last_response := Some (app.last_response w') |}
         (py "edgar_alan_poe")
       = Return
           (page.Proceed
              {| page.selected_persona := Some (py "edgar_alan_poe");
                 page.conversation_history := Some (app.conversation_history w');
                 page.last_response := Some (app.last_response w') |}
              Examples.poe).
Proof.
  eexists. split; [vm_compute; reflexivity|].
  apply (conversation_survives_turn two_personas
           {| page.selected_persona := None;
              page.conversation_history := None;
              page.last_response := None |}
           {| page.selected_persona := Some (py "edgar_alan_poe");
              page.conversation_history := Some [page.system_entry Examples.poe];
              page.last_response := None |}
           (py "edgar_alan_poe") Examples.poe
           [page.system_entry Examples.poe] Examples.rate_limited
           (Some (py "My love is gone")) [] []).
  - vm_compute. reflexivity.
  - reflexivity.
  - vm_compute. reflexivity.
Defined.

(** X17: after a turn with a message the display shows the assistant's
    reply first, then the user's message, then what it showed before: the
    newest entry comes first. *)
Theorem display_newest_first (openai_client : client) (w : app.world)
        (user_input : str) :
  user_input <> [] ->
  app.conversation_history w <> [] ->
  exists w',
    app.on_user_input openai_client w (Some user_input) = Return w'
    /\ page.display (app.conversation_history w')
       = (py "assistant", app.last_response w')
         :: (py "user", user_input)
         :: page.display (app.conversation_history w).
Proof.
  intros Hu Hh.
  destruct (app.conversation_history w) as [|first rest] eqn:E; [contradiction|].
  assert (D : forall reply,
             page.display (((first :: rest) ++ [mkMessage (py "user") user_input])
                           ++ [mkMessage (py "assistant") reply])
             = (py "assistant", reply) :: (py "user", user_input)
               :: page.display (first :: rest)).
  { intros reply. unfold page.display. cbn [app tl].
    rewrite !rev_app_distr. cbn [rev app flat_map].
    now rewrite shown_user, shown_assistant. }
  destruct (on_user_input_cases openai_client w user_input Hu)
    as [(reply & _ & H) | (_ & raw & _ & H)]; rewrite H; eexists;
    (split; [reflexivity|]); cbn [app.conversation_history app.last_response];
    rewrite E; apply D.
Qed.

Lemma display_newest_first_witness :
  exists w',
    app.on_user_input Examples.rate_limited Examples.fresh_world
      (Some (py "My love is gone")) = Return w'
    /\ page.display (app.conversation_history w')
       = [ (py "assistant", app.last_response w'); (py "user", py "My love is gone") ].
Proof.
  destruct (display_newest_first Examples.rate_limited Examples.fresh_world
              (py "My love is gone")) as (w' & H & D); try discriminate.
  exists w'. split; [exact H|exact D].
Defined.

End PageProperties.
